(** * brazil_types: CPF and CNPJ value types

    A shallow embedding of [brazil_types/types.py] and the verification of
    its cleaning, check-digit, formatting and accessor behaviour.

    The module is plain Python over [str] and [int].  Python integers are
    modelled by [Z], Python strings by [string], exceptions by an error
    result.  The builtins the module calls ([int], [str.format], [re.sub],
    indexing, slicing, [sum], [range]) are given executable definitions in
    [Py]; the two classes are transcribed method by method in [CNPJ] and
    [CPF]. *)

From Stdlib Require Import ZArith List Bool Ascii String Lia.
Import ListNotations.

Local Open Scope string_scope.
Local Open Scope Z_scope.

(** ** The fragment of Python the module relies on *)

Module Py.

(** Exceptions carry the text of their message. *)
Inductive exn : Type :=
| ValueError (msg : string)
| TypeError (msg : string)
| IndexError (msg : string).

Inductive result (A : Type) : Type :=
| Ok (a : A)
| Raise (e : exn).

Arguments Ok {A} a.
Arguments Raise {A} e.

Definition bind {A B : Type} (m : result A) (k : A -> result B) : result B :=
  match m with
  | Ok a => k a
  | Raise e => Raise e
  end.

(** The values a caller hands to [clean], [validate] and the constructors:
    [None], an [int], or a [str]. *)
Inductive value : Type :=
| PyNone
| PyInt (n : Z)
| PyStr (s : string).

(** *** Characters and digits *)

(** Membership in the character class [[0-9]]. *)
Definition isdigit (c : ascii) : bool :=
  ((48 <=? nat_of_ascii c) && (nat_of_ascii c <=? 57))%nat.

Definition digit_val (c : ascii) : Z :=
  Z.of_nat (nat_of_ascii c - 48).

Definition digit_char (k : Z) : ascii :=
  ascii_of_nat (48 + Z.to_nat k).

Fixpoint all_digits (s : string) : bool :=
  match s with
  | EmptyString => true
  | String c t => isdigit c && all_digits t
  end.

(** [re.sub('[^0-9]', '', s)]: every character outside [[0-9]] is dropped. *)
Fixpoint re_sub_non_digits (s : string) : string :=
  match s with
  | EmptyString => EmptyString
  | String c t =>
      if isdigit c then String c (re_sub_non_digits t) else re_sub_non_digits t
  end.

(** *** [int(s)] *)

(** Value of a run of decimal digits, most significant first. *)
Fixpoint parse_digits (acc : Z) (s : string) : Z :=
  match s with
  | EmptyString => acc
  | String c t => parse_digits (10 * acc + digit_val c) t
  end.

Definition is_numeral (s : string) : bool :=
  match s with
  | EmptyString => false
  | String _ _ => all_digits s
  end.

Definition invalid_literal (s : string) : exn :=
  ValueError ("invalid literal for int() with base 10: '" ++ s ++ "'").

(** [int(s)] on the literals this module can pass to it: an optional sign
    followed by at least one decimal digit.  Anything else, the empty string
    included, raises [ValueError].  Integers are unbounded, as in the
    interpreters the package declares support for (2.7, 3.4, 3.5), which put
    no limit on the length of a numeral. *)
Definition int_of_str (s : string) : result Z :=
  match s with
  | EmptyString => Raise (invalid_literal s)
  | String c t =>
      if Ascii.eqb c "-" then
        if is_numeral t then Ok (- parse_digits 0 t) else Raise (invalid_literal s)
      else if Ascii.eqb c "+" then
        if is_numeral t then Ok (parse_digits 0 t) else Raise (invalid_literal s)
      else
        if all_digits s then Ok (parse_digits 0 s) else Raise (invalid_literal s)
  end.

(** *** [str(n)] and the format specification [0wd] *)

(** Decimal digits of a non-negative integer, most significant first, with
    no leading zero ("0" for zero).  The fuel bounds the number of digits. *)
Fixpoint decimal (fuel : nat) (n : Z) : string :=
  match fuel with
  | O => EmptyString
  | S f =>
      (if n <? 10 then EmptyString else decimal f (n / 10))
        ++ String (digit_char (n mod 10)) EmptyString
  end.

Definition str_of_nonneg (n : Z) : string :=
  decimal (S (Z.to_nat (Z.log2 n))) n.

(** ['{0}'.format(n)] for an integer [n]. *)
Definition str_of_int (n : Z) : string :=
  if n <? 0 then "-" ++ str_of_nonneg (- n) else str_of_nonneg n.

Fixpoint zeros (k : nat) : string :=
  match k with
  | O => EmptyString
  | S k' => String "0" (zeros k')
  end.

Definition zfill (w : nat) (s : string) : string :=
  zeros (w - String.length s) ++ s.

(** ['{0:0wd}'.format(n)]: sign-aware zero padding to a minimum width of [w];
    a numeral longer than [w] is left as it is. *)
Definition format_0d (w : nat) (n : Z) : string :=
  if n <? 0 then "-" ++ zfill (w - 1) (str_of_nonneg (- n))
  else zfill w (str_of_nonneg n).

(** *** Indexing, slicing, comprehensions *)

(** [s[i]] for [i >= 0]. *)
Definition getitem (s : string) (i : nat) : result string :=
  match String.get i s with
  | Some c => Ok (String c EmptyString)
  | None => Raise (IndexError "string index out of range")
  end.

(** [s[a:b]] for [0 <= a], [0 <= b]; out-of-range bounds are clipped. *)
Definition slice (s : string) (a b : nat) : string :=
  substring a (b - a) s.

(** [s[-k:]]. *)
Definition slice_last (s : string) (k : nat) : string :=
  substring (String.length s - k) k s.

(** [range(a, b)]. *)
Definition range (a b : nat) : list nat := seq a (b - a).

(** [[f(i) for i in l]], stopping at the first exception. *)
Fixpoint comprehension {A : Type} (f : nat -> result A) (l : list nat)
  : result (list A) :=
  match l with
  | [] => Ok []
  | i :: l' =>
      bind (f i) (fun x => bind (comprehension f l') (fun xs => Ok (x :: xs)))
  end.

Definition sum (l : list Z) : Z := fold_left Z.add l 0.

(** [t[i]] for a list literal [t]. *)
Definition list_getitem (t : list Z) (i : nat) : result Z :=
  match nth_error t i with
  | Some x => Ok x
  | None => Raise (IndexError "list index out of range")
  end.

End Py.

Import Py.

Notation "x <- m ;; k" := (bind m (fun x => k))
  (at level 61, m at next level, right associativity).

#[global] Arguments isdigit : simpl never.
#[global] Arguments digit_char : simpl never.
#[global] Arguments digit_val : simpl never.
#[local] Arguments Z.pow : simpl never.
#[local] Arguments Z.div : simpl never.
#[local] Arguments Z.modulo : simpl never.
#[local] Arguments Z.mul : simpl never.
#[local] Arguments Z.add : simpl never.
#[local] Arguments Z.of_nat : simpl never.

(** ** class CNPJ *)

Module CNPJ.

(** An instance holds the single attribute [_cnpj]. *)
Record t : Type := mk { _cnpj : string }.

Definition __name__ : string := "CNPJ".

(** [CNPJ.clean(cnpj)]: a [str] goes through [re.sub] and [int] first; the
    number is then rendered by ['{0:014d}'.format]. *)
Definition clean (cnpj : value) : result string :=
  match cnpj with
  | PyStr s => n <- int_of_str (re_sub_non_digits s) ;; Ok (format_0d 14 n)
  | PyInt n => Ok (format_0d 14 n)
  | PyNone => Raise (TypeError "unsupported format string passed to NoneType.__format__")
  end.

Definition digitos_validacao : list Z := [6; 5; 4; 3; 2; 9; 8; 7; 6; 5; 4; 3; 2].

Definition mod11 (value : Z) : Z :=
  let value := value mod 11 in
  if value >? 1 then 11 - value else 0.

(** The local [dig1] of [validate], as a function of the cleaned string. *)
Definition dig1 (cnpj : string) : result Z :=
  terms <- comprehension
             (fun i => w <- list_getitem digitos_validacao i ;;
                       c <- getitem cnpj (i - 1) ;;
                       d <- int_of_str c ;;
                       Ok (w * d))
             (range 1 13) ;;
  Ok (mod11 (sum terms)).

(** The local [dig2] of [validate], as a function of the cleaned string. *)
Definition dig2 (cnpj : string) : result Z :=
  terms <- comprehension
             (fun i => w <- list_getitem digitos_validacao i ;;
                       c <- getitem cnpj i ;;
                       d <- int_of_str c ;;
                       Ok (w * d))
             (range 0 13) ;;
  Ok (mod11 (sum terms)).

(** [CNPJ.validate(cnpj)]. *)
Definition validate (cnpj : value) : result bool :=
  match cnpj with
  | PyNone => Ok false
  | _ =>
      cnpj <- clean cnpj ;;
      dig1 <- dig1 cnpj ;;
      dig2 <- dig2 cnpj ;;
      Ok (String.eqb (slice_last cnpj 2) (str_of_int dig1 ++ str_of_int dig2))
  end.

(** [CNPJ(cnpj)]; the argument defaults to [0]. *)
Definition __init__ (cnpj : value) : result t :=
  s <- clean cnpj ;; Ok (mk s).

(** [CNPJ()]. *)
Definition default : result t := __init__ (PyInt 0).

Definition empty (self : t) : result bool :=
  n <- int_of_str (_cnpj self) ;; Ok (n =? 0).

Definition extensao (self : t) : string := slice (_cnpj self) 8 12.

Definition raiz (self : t) : string := slice (_cnpj self) 0 8.

Definition valid (self : t) : result bool := validate (PyStr (_cnpj self)).

(** [self.format(format_spec)]; [format_spec] defaults to ['f']. *)
Definition format (self : t) (format_spec : string) : result string :=
  if String.eqb format_spec EmptyString || String.eqb format_spec "f" then
    cnpj <- clean (PyStr (_cnpj self)) ;;
    Ok (slice cnpj 0 2 ++ "." ++ slice cnpj 2 5 ++ "." ++ slice cnpj 5 8
          ++ "/" ++ slice cnpj 8 12 ++ "-" ++ slice cnpj 12 14)
  else if String.eqb format_spec "r" then
    Ok (_cnpj self)
  else
    Raise (ValueError ("Unknown format code '" ++ format_spec
                         ++ "' for object of type '" ++ __name__ ++ "'")).

Definition __format__ (self : t) (format_spec : string) : result string :=
  format self format_spec.

Definition __str__ (self : t) : result string := format self "f".

Definition __repr__ (self : t) : result string :=
  s <- __format__ self "f" ;; Ok ("<CNPJ: " ++ s ++ ">").

End CNPJ.

(** ** class CPF *)

Module CPF.

(** An instance holds the single attribute [_cpf]. *)
Record t : Type := mk { _cpf : string }.

Definition __name__ : string := "CPF".

(** [CPF.clean(cpf)]: a [str] goes through [re.sub] and [int] first; the
    number is then rendered by ['{0:011d}'.format]. *)
Definition clean (cpf : value) : result string :=
  match cpf with
  | PyStr s => n <- int_of_str (re_sub_non_digits s) ;; Ok (format_0d 11 n)
  | PyInt n => Ok (format_0d 11 n)
  | PyNone => Raise (TypeError "unsupported format string passed to NoneType.__format__")
  end.

Definition mod11 (value : Z) : Z := (value mod 11) mod 10.

(** The local [dig1] of [validate], as a function of the cleaned string. *)
Definition dig1 (cpf : string) : result Z :=
  terms <- comprehension
             (fun i => c <- getitem cpf i ;;
                       d <- int_of_str c ;;
                       Ok ((Z.of_nat i + 1) * d))
             (range 0 9) ;;
  Ok (mod11 (sum terms)).

(** The local [dig2] of [validate], as a function of the cleaned string. *)
Definition dig2 (cpf : string) : result Z :=
  terms <- comprehension
             (fun i => c <- getitem cpf i ;;
                       d <- int_of_str c ;;
                       Ok (Z.of_nat i * d))
             (range 1 10) ;;
  Ok (mod11 (sum terms)).

(** [CPF.validate(cpf)]. *)
Definition validate (cpf : value) : result bool :=
  match cpf with
  | PyNone => Ok false
  | _ =>
      cpf <- clean cpf ;;
      dig1 <- dig1 cpf ;;
      dig2 <- dig2 cpf ;;
      Ok (String.eqb (slice_last cpf 2) (str_of_int dig1 ++ str_of_int dig2))
  end.

(** [CPF(cpf)]; the argument defaults to [0]. *)
Definition __init__ (cpf : value) : result t :=
  s <- clean cpf ;; Ok (mk s).

(** [CPF()]. *)
Definition default : result t := __init__ (PyInt 0).

Definition empty (self : t) : result bool :=
  n <- int_of_str (_cpf self) ;; Ok (n =? 0).

Definition valid (self : t) : result bool := validate (PyStr (_cpf self)).

(** [self.format(format_spec)]; [format_spec] defaults to ['f']. *)
Definition format (self : t) (format_spec : string) : result string :=
  if String.eqb format_spec EmptyString || String.eqb format_spec "f" then
    cpf <- clean (PyStr (_cpf self)) ;;
    Ok (slice cpf 0 3 ++ "." ++ slice cpf 3 6 ++ "." ++ slice cpf 6 9
          ++ "-" ++ slice cpf 9 11)
  else if String.eqb format_spec "r" then
    Ok (_cpf self)
  else
    Raise (ValueError ("Unknown format code '" ++ format_spec
                         ++ "' for object of type '" ++ __name__ ++ "'")).

Definition __format__ (self : t) (format_spec : string) : result string :=
  format self format_spec.

Definition __str__ (self : t) : result string := format self "f".

Definition __repr__ (self : t) : result string :=
  s <- __format__ self "f" ;; Ok ("<CPF: " ++ s ++ ">").

End CPF.

(** ** Auxiliary notions used in the statements *)

(** The [w] low-order decimal digits of [n], most significant first. *)
Fixpoint fixed (w : nat) (n : Z) : string :=
  match w with
  | O => EmptyString
  | S w' => fixed w' (n / 10) ++ String (digit_char (n mod 10)) EmptyString
  end.

(** A string made of exactly [w] decimal digits. *)
Definition canonical (w : nat) (s : string) : Prop :=
  String.length s = w /\ all_digits s = true.

(** The number an input denotes, when it denotes one: an [int] is itself, a
    [str] is read off its digit characters when it has any. *)
Definition numeric_value (v : value) : option Z :=
  match v with
  | PyNone => None
  | PyInt n => Some n
  | PyStr s =>
      match re_sub_non_digits s with
      | EmptyString => None
      | String _ _ as t => Some (parse_digits 0 t)
      end
  end.

(** The check-digit rules as the specification words them, over the digits
    [d[i]] of a digit-string. *)
Module Spec.

(** [d[i]] read as a number. *)
Definition digit (d : string) (i : nat) : Z :=
  match String.get i d with
  | Some c => digit_val c
  | None => 0
  end.

(** Sum of [f i] for [i] in [a..b], both ends included. *)
Definition sigma (a b : nat) (f : nat -> Z) : Z :=
  fold_right (fun i acc => f i + acc) 0 (seq a (S b - a)).

(** IndividualID: weights [i+1] over [d[0..8]], then weights [i] over
    [d[1..9]]; reduction [(sum mod 11) mod 10]. *)
Definition cpf_check1 (d : string) : Z :=
  (sigma 0 8 (fun i => (Z.of_nat i + 1) * digit d i) mod 11) mod 10.

Definition cpf_check2 (d : string) : Z :=
  (sigma 1 9 (fun i => Z.of_nat i * digit d i) mod 11) mod 10.

(** EntityID: the 13-entry weight table and its reduction rule. *)
Definition table : list Z := [6; 5; 4; 3; 2; 9; 8; 7; 6; 5; 4; 3; 2].

Definition weight (i : nat) : Z := nth i table 0.

Definition reduce (sum : Z) : Z :=
  let v := sum mod 11 in
  if 1 <? v then 11 - v else 0.

Definition cnpj_check1 (d : string) : Z :=
  reduce (sigma 1 12 (fun i => weight i * digit d (i - 1))).

Definition cnpj_check2 (d : string) : Z :=
  reduce (sigma 0 12 (fun i => weight i * digit d i)).

(** The two check digits written as a two-character string. *)
Definition two_digits (a b : Z) : string :=
  String (digit_char a) (String (digit_char b) EmptyString).

End Spec.

(** The payload of 9 (CPF) or 12 (CNPJ) digits followed by the two check
    digits the rules give for it, the second computed over the payload
    extended by the first. *)
Definition cpf_complete (payload : string) : string :=
  let d1 := payload ++ String (digit_char (Spec.cpf_check1 payload)) EmptyString in
  d1 ++ String (digit_char (Spec.cpf_check2 d1)) EmptyString.

Definition cnpj_complete (payload : string) : string :=
  let d1 := payload ++ String (digit_char (Spec.cnpj_check1 payload)) EmptyString in
  d1 ++ String (digit_char (Spec.cnpj_check2 d1)) EmptyString.

(** Splits a string of known length into its characters. *)
Ltac explode_len p Hl :=
  repeat (destruct p as [|? p]; [discriminate Hl|];
          cbn [String.length] in Hl; apply eq_add_S in Hl);
  destruct p; [clear Hl | discriminate Hl].

(** Splits off the first character of a string known to be long enough,
    with the digit fact for that character. *)
Ltac explode_head d Hl Hd :=
  destruct d as [|? d]; [cbn [String.length] in Hl; lia|];
  cbn [String.length] in Hl; apply le_S_n in Hl;
  cbn [all_digits] in Hd;
  let H := fresh "Hc" in apply andb_true_iff in Hd as [H Hd].

(** Splits a string of known length into its characters, and the digit
    hypothesis into one fact per character. *)
Ltac explode d Hl Hd :=
  repeat (destruct d as [|? d]; [discriminate Hl|];
          cbn [String.length] in Hl; apply eq_add_S in Hl;
          cbn [all_digits] in Hd;
          let H := fresh "Hc" in apply andb_true_iff in Hd as [H Hd]);
  destruct d; [clear Hl Hd | discriminate Hl].

(** ** Facts about strings *)

Section StringFacts.

Lemma append_nil_r (s : string) : s ++ EmptyString = s.
Proof. induction s as [|c s IH]; simpl; [reflexivity | now rewrite IH]. Qed.

Lemma append_assoc (a b c : string) : (a ++ b) ++ c = a ++ (b ++ c).
Proof. induction a as [|x a IH]; simpl; [reflexivity | now rewrite IH]. Qed.

Lemma length_append (a b : string) :
  String.length (a ++ b) = (String.length a + String.length b)%nat.
Proof. induction a as [|x a IH]; simpl; [reflexivity | now rewrite IH]. Qed.

Lemma all_digits_append (a b : string) :
  all_digits (a ++ b) = all_digits a && all_digits b.
Proof.
  induction a as [|x a IH]; simpl; [reflexivity|].
  now rewrite IH, andb_assoc.
Qed.

Lemma length_zeros (k : nat) : String.length (zeros k) = k.
Proof. induction k; simpl; congruence. Qed.

Lemma zeros_snoc (k : nat) :
  zeros k ++ String "0" EmptyString = String "0" (zeros k).
Proof. induction k as [|k IH]; simpl; [reflexivity | now rewrite IH]. Qed.

(** A non-empty string splits into an initial part and its last character. *)
Lemma string_snoc_inv (w : nat) : forall s : string,
  String.length s = S w ->
  exists s' c, s = s' ++ String c EmptyString /\ String.length s' = w.
Proof.
  induction w as [|w IH]; intros [|a s] H; simpl in H; try discriminate.
  - destruct s; [|discriminate]. now exists EmptyString, a.
  - injection H as H. destruct (IH s H) as (s' & c & -> & Hl).
    exists (String a s'), c. simpl. now rewrite Hl.
Qed.

Lemma substring_all (s : string) : substring 0 (String.length s) s = s.
Proof. induction s as [|c s IH]; simpl; [reflexivity | now rewrite IH]. Qed.

Lemma length_substring (s : string) : forall n m : nat,
  (n + m <= String.length s)%nat -> String.length (substring n m s) = m.
Proof.
  induction s as [|c s IH]; intros [|n] [|m] H; simpl in *; try lia; auto.
  - rewrite (IH 0%nat m); [reflexivity | lia].
  - apply IH; lia.
  - apply IH; lia.
Qed.

(** Consecutive slices concatenate back to the slice they cover. *)
Lemma substring_split (s : string) : forall n m k : nat,
  (n + m + k <= String.length s)%nat ->
  substring n m s ++ substring (n + m) k s = substring n (m + k) s.
Proof.
  induction s as [|c s IH]; intros n m k H; simpl in H.
  - assert (E : n = 0%nat /\ m = 0%nat /\ k = 0%nat) by lia.
    destruct E as (-> & -> & ->). reflexivity.
  - destruct n as [|n]; [destruct m as [|m]|].
    + reflexivity.
    + simpl. f_equal. apply (IH 0%nat m k). lia.
    + simpl. apply (IH n m k). lia.
Qed.

End StringFacts.

(** ** Facts about digits and numerals *)

Section DigitFacts.

Lemma isdigit_range (c : ascii) :
  isdigit c = true <-> (48 <= nat_of_ascii c <= 57)%nat.
Proof.
  unfold isdigit. rewrite andb_true_iff, !Nat.leb_le. tauto.
Qed.

Lemma digit_val_range (c : ascii) : isdigit c = true -> 0 <= digit_val c < 10.
Proof. rewrite isdigit_range. unfold digit_val. lia. Qed.

Lemma digit_char_val (c : ascii) :
  isdigit c = true -> digit_char (digit_val c) = c.
Proof.
  rewrite isdigit_range. intros H. unfold digit_char, digit_val.
  rewrite Nat2Z.id.
  replace (48 + (nat_of_ascii c - 48))%nat with (nat_of_ascii c) by lia.
  apply ascii_nat_embedding.
Qed.

Lemma digit_val_char (k : Z) : 0 <= k < 10 -> digit_val (digit_char k) = k.
Proof.
  intros H. unfold digit_char, digit_val.
  rewrite nat_ascii_embedding by lia. lia.
Qed.

Lemma isdigit_digit_char (k : Z) : 0 <= k < 10 -> isdigit (digit_char k) = true.
Proof.
  intros H. apply isdigit_range. unfold digit_char.
  rewrite nat_ascii_embedding by lia. lia.
Qed.

Lemma digit_char_inj (c : ascii) (k : Z) :
  isdigit c = true -> 0 <= k < 10 -> (c = digit_char k <-> digit_val c = k).
Proof.
  intros Hc Hk. split.
  - intros ->. now apply digit_val_char.
  - intros <-. symmetry. now apply digit_char_val.
Qed.

Lemma isdigit_not_sign (c : ascii) :
  isdigit c = true -> Ascii.eqb c "-" = false /\ Ascii.eqb c "+" = false.
Proof.
  intros H. split; apply Ascii.eqb_neq; intros ->; discriminate H.
Qed.

Lemma parse_digits_snoc (s : string) : forall (acc : Z) (c : ascii),
  parse_digits acc (s ++ String c EmptyString)
  = 10 * parse_digits acc s + digit_val c.
Proof. induction s as [|x s IH]; intros acc c; simpl; [reflexivity | apply IH]. Qed.

Lemma all_digits_re_sub (s : string) : all_digits (re_sub_non_digits s) = true.
Proof.
  induction s as [|c s IH]; simpl; [reflexivity|].
  destruct (isdigit c) eqn:E; simpl; [now rewrite E|exact IH].
Qed.

Lemma re_sub_digits (s : string) :
  all_digits s = true -> re_sub_non_digits s = s.
Proof.
  induction s as [|c s IH]; simpl; [reflexivity|].
  rewrite andb_true_iff. intros [-> H]. now rewrite IH.
Qed.

Lemma re_sub_append (a b : string) :
  re_sub_non_digits (a ++ b) = re_sub_non_digits a ++ re_sub_non_digits b.
Proof.
  induction a as [|c a IH]; simpl; [reflexivity|].
  destruct (isdigit c); simpl; now rewrite IH.
Qed.

(** [int] succeeds on a non-empty run of digits. *)
Lemma int_of_str_digits (s : string) :
  all_digits s = true -> s <> EmptyString ->
  int_of_str s = Ok (parse_digits 0 s).
Proof.
  destruct s as [|c s]; [congruence|]. intros H _.
  unfold int_of_str. rewrite H.
  simpl in H. apply andb_true_iff in H as [Hc _].
  destruct (isdigit_not_sign c Hc) as [-> ->]. reflexivity.
Qed.

Lemma int_of_str_digit (c : ascii) :
  isdigit c = true -> int_of_str (String c EmptyString) = Ok (digit_val c).
Proof.
  intros H. rewrite int_of_str_digits; [reflexivity| |discriminate].
  simpl. now rewrite H.
Qed.

End DigitFacts.

(** ** Facts about decimal rendering *)

Section NumeralFacts.

Lemma length_fixed (w : nat) : forall n : Z, String.length (fixed w n) = w.
Proof.
  induction w as [|w IH]; intros n; simpl; [reflexivity|].
  rewrite length_append, IH. simpl. lia.
Qed.

Lemma all_digits_fixed (w : nat) : forall n : Z, all_digits (fixed w n) = true.
Proof.
  induction w as [|w IH]; intros n; simpl; [reflexivity|].
  rewrite all_digits_append, IH. cbn [all_digits].
  rewrite isdigit_digit_char; [reflexivity|].
  apply Z.mod_pos_bound. lia.
Qed.

Lemma canonical_fixed (w : nat) (n : Z) : canonical w (fixed w n).
Proof. split; [apply length_fixed | apply all_digits_fixed]. Qed.

Lemma fixed_zero (w : nat) : fixed w 0 = zeros w.
Proof.
  induction w as [|w IH]; cbn [fixed]; [reflexivity|].
  change (0 / 10) with 0. rewrite IH. apply zeros_snoc.
Qed.

Lemma pow10_succ (w : nat) : 10 ^ Z.of_nat (S w) = 10 * 10 ^ Z.of_nat w.
Proof. rewrite Nat2Z.inj_succ, Z.pow_succ_r; lia. Qed.

Lemma pow10_pos (w : nat) : 0 < 10 ^ Z.of_nat w.
Proof. apply Z.pow_pos_nonneg; lia. Qed.

Lemma parse_fixed (w : nat) : forall n : Z,
  0 <= n < 10 ^ Z.of_nat w -> parse_digits 0 (fixed w n) = n.
Proof.
  induction w as [|w IH]; intros n H.
  - change (10 ^ Z.of_nat 0) with 1 in H. cbn [fixed parse_digits]. lia.
  - cbn [fixed]. rewrite parse_digits_snoc, IH.
    + rewrite digit_val_char by (apply Z.mod_pos_bound; lia).
      symmetry. apply Z.div_mod. lia.
    + rewrite pow10_succ in H. split.
      * apply Z.div_pos; lia.
      * apply Z.div_lt_upper_bound; lia.
Qed.

Lemma parse_bound (w : nat) : forall d : string,
  canonical w d -> 0 <= parse_digits 0 d < 10 ^ Z.of_nat w.
Proof.
  induction w as [|w IH]; intros d [Hl Hd].
  - destruct d; [|discriminate].
    change (10 ^ Z.of_nat 0) with 1. cbn [parse_digits]. lia.
  - destruct (string_snoc_inv w d Hl) as (d' & c & -> & Hl').
    rewrite all_digits_append in Hd. apply andb_true_iff in Hd as [Hd' Hc].
    cbn [all_digits] in Hc. rewrite andb_true_r in Hc.
    rewrite parse_digits_snoc, pow10_succ.
    pose proof (IH d' (conj Hl' Hd')). pose proof (digit_val_range c Hc). lia.
Qed.

Lemma fixed_parse (w : nat) : forall d : string,
  canonical w d -> fixed w (parse_digits 0 d) = d.
Proof.
  induction w as [|w IH]; intros d [Hl Hd].
  - destruct d; [reflexivity | discriminate].
  - destruct (string_snoc_inv w d Hl) as (d' & c & -> & Hl').
    rewrite all_digits_append in Hd. apply andb_true_iff in Hd as [Hd' Hc].
    cbn [all_digits] in Hc. rewrite andb_true_r in Hc.
    pose proof (digit_val_range c Hc) as Hv.
    rewrite parse_digits_snoc. cbn [fixed].
    replace ((10 * parse_digits 0 d' + digit_val c) / 10) with (parse_digits 0 d')
      by (apply Z.div_unique with (r := digit_val c); lia).
    replace ((10 * parse_digits 0 d' + digit_val c) mod 10) with (digit_val c)
      by (apply Z.mod_unique with (q := parse_digits 0 d'); lia).
    rewrite IH by (split; assumption). now rewrite digit_char_val.
Qed.

Lemma all_digits_decimal (fuel : nat) : forall n : Z,
  all_digits (decimal fuel n) = true.
Proof.
  induction fuel as [|f IH]; intros n; cbn [decimal]; [reflexivity|].
  rewrite all_digits_append. cbn [all_digits].
  rewrite isdigit_digit_char by (apply Z.mod_pos_bound; lia).
  destruct (n <? 10); [reflexivity | now rewrite IH].
Qed.

Lemma zfill_snoc (w : nat) (s : string) (c : ascii) :
  zfill (S w) (s ++ String c EmptyString) = zfill w s ++ String c EmptyString.
Proof.
  unfold zfill. rewrite length_append, append_assoc. cbn [String.length].
  now replace (S w - (String.length s + 1))%nat with (w - String.length s)%nat by lia.
Qed.

(** Padding the shortest numeral of [n] to [w] places gives its [w] digits. *)
Lemma zfill_decimal (fuel : nat) : forall (n : Z) (w : nat),
  0 <= n < 10 ^ Z.of_nat (S w) -> n < 2 ^ Z.of_nat fuel ->
  zfill (S w) (decimal fuel n) = fixed (S w) n.
Proof.
  induction fuel as [|f IH]; intros n w Hn Hf.
  - change (2 ^ Z.of_nat 0) with 1 in Hf. assert (n = 0) as -> by lia.
    rewrite fixed_zero. unfold zfill. cbn [decimal String.length].
    now rewrite Nat.sub_0_r, append_nil_r.
  - cbn [decimal fixed]. destruct (n <? 10) eqn:E.
    + apply Z.ltb_lt in E. cbn [append].
      change (String (digit_char (n mod 10)) EmptyString)
        with (EmptyString ++ String (digit_char (n mod 10)) EmptyString) at 1.
      rewrite zfill_snoc. f_equal.
      rewrite Z.div_small by lia. rewrite fixed_zero.
      unfold zfill. cbn [String.length]. now rewrite Nat.sub_0_r, append_nil_r.
    + apply Z.ltb_ge in E. rewrite zfill_snoc. f_equal.
      destruct w as [|w]; [change (10 ^ Z.of_nat 1) with 10 in Hn; lia|].
      apply IH.
      * rewrite pow10_succ in Hn. split.
        -- apply Z.div_pos; lia.
        -- apply Z.div_lt_upper_bound; lia.
      * rewrite Nat2Z.inj_succ, Z.pow_succ_r in Hf by lia.
        apply Z.div_lt_upper_bound; lia.
Qed.

Lemma log2_fuel (n : Z) : 0 <= n -> n < 2 ^ Z.of_nat (S (Z.to_nat (Z.log2 n))).
Proof.
  intros H. rewrite Nat2Z.inj_succ, Z2Nat.id by apply Z.log2_nonneg.
  destruct (Z.eq_dec n 0) as [->|Hz]; [reflexivity|].
  apply Z.log2_spec. lia.
Qed.

(** On [0 <= n < 10^w] the format [0wd] yields the [w] digits of [n]. *)
Lemma format_0d_fixed (w : nat) (n : Z) :
  0 <= n < 10 ^ Z.of_nat (S w) -> format_0d (S w) n = fixed (S w) n.
Proof.
  intros H. unfold format_0d.
  replace (n <? 0) with false by (symmetry; apply Z.ltb_ge; lia).
  apply zfill_decimal; [assumption | now apply log2_fuel].
Qed.

(** A canonical string is a fixed point of [re.sub], [int] and [0wd]. *)
Lemma format_0d_parse (w : nat) (d : string) :
  canonical (S w) d -> format_0d (S w) (parse_digits 0 d) = d.
Proof.
  intros H. rewrite format_0d_fixed by now apply parse_bound.
  now apply fixed_parse.
Qed.

End NumeralFacts.

(** ** Facts shared by the two classes *)

Section ClassFacts.

Lemma str_of_int_digit (k : Z) :
  0 <= k < 10 -> str_of_int k = String (digit_char k) EmptyString.
Proof.
  intros H. unfold str_of_int, str_of_nonneg.
  replace (k <? 0) with false by (symmetry; apply Z.ltb_ge; lia).
  cbn [decimal].
  replace (k <? 10) with true by (symmetry; apply Z.ltb_lt; lia).
  cbn [append]. now rewrite Z.mod_small.
Qed.

Lemma cnpj_mod11_range (s : Z) : 0 <= CNPJ.mod11 s < 10.
Proof.
  unfold CNPJ.mod11. cbv zeta.
  pose proof (Z.mod_pos_bound s 11 ltac:(lia)).
  destruct (s mod 11 >? 1) eqn:E; [|lia].
  apply Z.gtb_lt in E. lia.
Qed.

Lemma cpf_clean_canonical (d : string) :
  canonical 11 d -> CPF.clean (PyStr d) = Ok d.
Proof.
  intros H. pose proof H as [Hl Hd]. unfold CPF.clean.
  rewrite re_sub_digits, int_of_str_digits; try assumption.
  - cbn [bind]. now rewrite format_0d_parse.
  - intros ->. discriminate Hl.
Qed.

Lemma cnpj_clean_canonical (d : string) :
  canonical 14 d -> CNPJ.clean (PyStr d) = Ok d.
Proof.
  intros H. pose proof H as [Hl Hd]. unfold CNPJ.clean.
  rewrite re_sub_digits, int_of_str_digits; try assumption.
  - cbn [bind]. now rewrite format_0d_parse.
  - intros ->. discriminate Hl.
Qed.

End ClassFacts.

Section CheckDigits.

Lemma cpf_dig1_canonical (d : string) :
  canonical 11 d -> CPF.dig1 d = Ok (Spec.cpf_check1 d).
Proof.
  intros [Hl Hd]. explode d Hl Hd.
  unfold CPF.dig1, range.
  cbn [Nat.sub seq comprehension getitem String.get bind]. rewrite !int_of_str_digit by assumption; cbn [bind].
  unfold CPF.mod11, Spec.cpf_check1, Spec.sigma, Spec.digit, sum.
  cbn [Nat.sub seq fold_left fold_right String.get].
  do 3 f_equal. lia.
Qed.

Lemma cpf_dig2_canonical (d : string) :
  canonical 11 d -> CPF.dig2 d = Ok (Spec.cpf_check2 d).
Proof.
  intros [Hl Hd]. explode d Hl Hd.
  unfold CPF.dig2, range.
  cbn [Nat.sub seq comprehension getitem String.get bind]. rewrite !int_of_str_digit by assumption; cbn [bind].
  unfold CPF.mod11, Spec.cpf_check2, Spec.sigma, Spec.digit, sum.
  cbn [Nat.sub seq fold_left fold_right String.get].
  do 3 f_equal. lia.
Qed.

Lemma cnpj_mod11_reduce (s : Z) : CNPJ.mod11 s = Spec.reduce s.
Proof.
  unfold CNPJ.mod11, Spec.reduce. cbv zeta.
  now rewrite Z.gtb_ltb.
Qed.

Lemma cnpj_dig1_canonical (d : string) :
  canonical 14 d -> CNPJ.dig1 d = Ok (Spec.cnpj_check1 d).
Proof.
  intros [Hl Hd]. explode d Hl Hd.
  unfold CNPJ.dig1, range, CNPJ.digitos_validacao.
  cbn [Nat.sub seq comprehension list_getitem nth_error getitem String.get bind].
  rewrite !int_of_str_digit by assumption; cbn [bind].
  rewrite cnpj_mod11_reduce.
  unfold Spec.cnpj_check1, Spec.sigma, Spec.digit, Spec.weight, Spec.table, sum.
  cbn [Nat.sub seq fold_left fold_right String.get nth].
  do 2 f_equal. lia.
Qed.

Lemma cnpj_dig2_canonical (d : string) :
  canonical 14 d -> CNPJ.dig2 d = Ok (Spec.cnpj_check2 d).
Proof.
  intros [Hl Hd]. explode d Hl Hd.
  unfold CNPJ.dig2, range, CNPJ.digitos_validacao.
  cbn [Nat.sub seq comprehension list_getitem nth_error getitem String.get bind].
  rewrite !int_of_str_digit by assumption; cbn [bind].
  rewrite cnpj_mod11_reduce.
  unfold Spec.cnpj_check2, Spec.sigma, Spec.digit, Spec.weight, Spec.table, sum.
  cbn [Nat.sub seq fold_left fold_right String.get nth].
  do 2 f_equal. lia.
Qed.

Lemma cpf_check1_range (d : string) : 0 <= Spec.cpf_check1 d < 10.
Proof. unfold Spec.cpf_check1. apply Z.mod_pos_bound. lia. Qed.

Lemma cpf_check2_range (d : string) : 0 <= Spec.cpf_check2 d < 10.
Proof. unfold Spec.cpf_check2. apply Z.mod_pos_bound. lia. Qed.

Lemma reduce_range (s : Z) : 0 <= Spec.reduce s < 10.
Proof. rewrite <- cnpj_mod11_reduce. apply cnpj_mod11_range. Qed.

Lemma cnpj_check1_range (d : string) : 0 <= Spec.cnpj_check1 d < 10.
Proof. apply reduce_range. Qed.

Lemma cnpj_check2_range (d : string) : 0 <= Spec.cnpj_check2 d < 10.
Proof. apply reduce_range. Qed.

(** Comparing the last two characters with the two computed digits. *)
Lemma two_digits_eqb (c1 c2 : ascii) (k1 k2 : Z) :
  isdigit c1 = true -> isdigit c2 = true -> 0 <= k1 < 10 -> 0 <= k2 < 10 ->
  (String.eqb (String c1 (String c2 EmptyString)) (Spec.two_digits k1 k2) = true
   <-> k1 = digit_val c1 /\ k2 = digit_val c2).
Proof.
  intros H1 H2 Hk1 Hk2. unfold Spec.two_digits. rewrite String.eqb_eq. split.
  - intros E. injection E as E1 E2.
    apply digit_char_inj in E1, E2; try assumption. now split.
  - intros [-> ->]. now rewrite !digit_char_val.
Qed.

End CheckDigits.

(** ** What [0wd] produces in general, and what [clean] makes of it *)

Section StoredFacts.

Lemma all_digits_substring (s : string) : forall n m : nat,
  all_digits s = true -> all_digits (substring n m s) = true.
Proof.
  induction s as [|c s IH]; intros [|n] [|m] H; cbn [substring all_digits];
    try reflexivity; cbn [all_digits] in H; apply andb_true_iff in H as [Hc Hs].
  - now rewrite Hc, IH.
  - now apply IH.
  - now apply IH.
Qed.

Lemma all_digits_zeros (k : nat) : all_digits (zeros k) = true.
Proof. induction k as [|k IH]; cbn [zeros all_digits]; [reflexivity | now rewrite IH]. Qed.

Lemma all_digits_zfill (w : nat) (s : string) :
  all_digits s = true -> all_digits (zfill w s) = true.
Proof.
  intros H. unfold zfill. now rewrite all_digits_append, all_digits_zeros, H.
Qed.

Lemma length_zfill (w : nat) (s : string) :
  String.length (zfill w s) = Nat.max w (String.length s).
Proof. unfold zfill. rewrite length_append, length_zeros. lia. Qed.

Lemma length_decimal_pos (f : nat) (n : Z) :
  (1 <= String.length (decimal (S f) n))%nat.
Proof. cbn [decimal]. rewrite length_append. cbn [String.length]. lia. Qed.

Lemma parse_zeros_app (k : nat) (s : string) :
  parse_digits 0 (zeros k ++ s) = parse_digits 0 s.
Proof. induction k as [|k IH]; [reflexivity | exact IH]. Qed.

Lemma parse_decimal (fuel : nat) : forall n : Z,
  0 <= n < 2 ^ Z.of_nat fuel -> parse_digits 0 (decimal fuel n) = n.
Proof.
  induction fuel as [|f IH]; intros n H.
  - change (2 ^ Z.of_nat 0) with 1 in H. cbn [decimal parse_digits]. lia.
  - cbn [decimal]. rewrite parse_digits_snoc.
    rewrite digit_val_char by (apply Z.mod_pos_bound; lia).
    rewrite Nat2Z.inj_succ, Z.pow_succ_r in H by lia.
    destruct (n <? 10) eqn:E.
    + apply Z.ltb_lt in E. cbn [parse_digits]. rewrite Z.mod_small; lia.
    + apply Z.ltb_ge in E. rewrite IH.
      * symmetry. apply Z.div_mod. lia.
      * split; [apply Z.div_pos; lia | apply Z.div_lt_upper_bound; lia].
Qed.

Lemma parse_str_of_nonneg (n : Z) :
  0 <= n -> parse_digits 0 (str_of_nonneg n) = n.
Proof.
  intros H. apply parse_decimal. split; [assumption | now apply log2_fuel].
Qed.

Lemma format_0d_nonneg (w : nat) (n : Z) :
  0 <= n -> format_0d w n = zfill w (str_of_nonneg n).
Proof.
  intros H. unfold format_0d.
  now replace (n <? 0) with false by (symmetry; apply Z.ltb_ge; lia).
Qed.

Lemma format_0d_neg (w : nat) (n : Z) :
  n < 0 -> format_0d w n = String "-" (zfill (w - 1) (str_of_nonneg (- n))).
Proof.
  intros H. unfold format_0d.
  now replace (n <? 0) with true by (symmetry; apply Z.ltb_lt; lia).
Qed.

Lemma all_digits_format_0d (w : nat) (n : Z) :
  0 <= n -> all_digits (format_0d w n) = true.
Proof.
  intros H. rewrite format_0d_nonneg by assumption.
  apply all_digits_zfill, all_digits_decimal.
Qed.

Lemma all_digits_format_0d_inv (w : nat) (n : Z) :
  all_digits (format_0d w n) = true -> 0 <= n.
Proof.
  intros H. destruct (Z.lt_ge_cases n 0) as [Hn|Hn]; [|assumption].
  rewrite format_0d_neg in H by assumption. discriminate H.
Qed.

(** The output of [0wd] is never shorter than [w]. *)
Lemma length_format_0d (w : nat) (n : Z) :
  (w <= String.length (format_0d w n))%nat.
Proof.
  destruct (Z.lt_ge_cases n 0) as [Hn|Hn].
  - rewrite format_0d_neg by assumption. cbn [String.length].
    rewrite length_zfill. lia.
  - rewrite format_0d_nonneg by assumption. rewrite length_zfill. lia.
Qed.

(** [0wd] yields exactly [w] digits precisely on [0 <= n < 10^w]. *)
Lemma canonical_format_0d_iff (w : nat) (n : Z) :
  canonical (S w) (format_0d (S w) n) <-> 0 <= n < 10 ^ Z.of_nat (S w).
Proof.
  split.
  - intros [Hl Hd]. pose proof (all_digits_format_0d_inv _ _ Hd) as Hn.
    split; [assumption|].
    rewrite format_0d_nonneg in Hl by assumption.
    rewrite length_zfill in Hl.
    pose proof (parse_bound _ (str_of_nonneg n)
                  (conj eq_refl (all_digits_decimal _ _))) as Hs.
    rewrite parse_str_of_nonneg in Hs by assumption.
    apply Z.lt_le_trans with (1 := proj2 Hs).
    apply Z.pow_le_mono_r; lia.
  - intros H. rewrite format_0d_fixed by assumption. apply canonical_fixed.
Qed.

(** Stripping and re-reading a stored string recovers the absolute value of
    the number it was rendered from; in particular [int] never fails on it. *)
Lemma int_of_str_format_0d (w : nat) (n : Z) :
  int_of_str (re_sub_non_digits (format_0d w n)) = Ok (Z.abs n).
Proof.
  assert (G : forall k m, 0 <= m ->
    int_of_str (zfill k (str_of_nonneg m)) = Ok m).
  { intros k m Hm. rewrite int_of_str_digits.
    - unfold zfill. now rewrite parse_zeros_app, parse_str_of_nonneg.
    - apply all_digits_zfill, all_digits_decimal.
    - intros E. apply (f_equal String.length) in E.
      rewrite length_zfill in E. cbn [String.length] in E.
      pose proof (length_decimal_pos (Z.to_nat (Z.log2 m)) m).
      unfold str_of_nonneg in E. lia. }
  destruct (Z.lt_ge_cases n 0) as [Hn|Hn].
  - rewrite format_0d_neg by assumption. cbn [re_sub_non_digits].
    change (isdigit "-") with false. cbv iota.
    rewrite re_sub_digits by apply all_digits_zfill, all_digits_decimal.
    rewrite G by lia. f_equal. lia.
  - rewrite re_sub_digits by now apply all_digits_format_0d.
    rewrite format_0d_nonneg by assumption. rewrite G by lia. f_equal. lia.
Qed.

End StoredFacts.

(** ** What the two [clean] methods return *)

Section CleanFacts.

Lemma int_of_str_re_sub (s : string) :
  int_of_str (re_sub_non_digits s)
  = match numeric_value (PyStr s) with
    | Some n => Ok n
    | None => Raise (invalid_literal EmptyString)
    end.
Proof.
  cbn [numeric_value]. pose proof (all_digits_re_sub s) as H.
  destruct (re_sub_non_digits s) as [|c t]; [reflexivity|].
  apply int_of_str_digits; [assumption | discriminate].
Qed.

Lemma cpf_clean_numeric (v : value) (n : Z) :
  numeric_value v = Some n -> CPF.clean v = Ok (format_0d 11 n).
Proof.
  destruct v as [|m|s]; intros H.
  - discriminate H.
  - injection H as ->. reflexivity.
  - unfold CPF.clean. now rewrite int_of_str_re_sub, H.
Qed.

Lemma cnpj_clean_numeric (v : value) (n : Z) :
  numeric_value v = Some n -> CNPJ.clean v = Ok (format_0d 14 n).
Proof.
  destruct v as [|m|s]; intros H.
  - discriminate H.
  - injection H as ->. reflexivity.
  - unfold CNPJ.clean. now rewrite int_of_str_re_sub, H.
Qed.

Lemma cpf_clean_inv (v : value) (s : string) :
  CPF.clean v = Ok s ->
  exists n, numeric_value v = Some n /\ s = format_0d 11 n.
Proof.
  destruct v as [|m|t]; cbn [CPF.clean]; intros H.
  - discriminate H.
  - injection H as <-. now exists m.
  - rewrite int_of_str_re_sub in H.
    destruct (numeric_value (PyStr t)) as [n|]; [|discriminate H].
    injection H as <-. now exists n.
Qed.

Lemma cnpj_clean_inv (v : value) (s : string) :
  CNPJ.clean v = Ok s ->
  exists n, numeric_value v = Some n /\ s = format_0d 14 n.
Proof.
  destruct v as [|m|t]; cbn [CNPJ.clean]; intros H.
  - discriminate H.
  - injection H as <-. now exists m.
  - rewrite int_of_str_re_sub in H.
    destruct (numeric_value (PyStr t)) as [n|]; [|discriminate H].
    injection H as <-. now exists n.
Qed.

Lemma cpf_init_inv (v : value) (x : CPF.t) :
  CPF.__init__ v = Ok x ->
  exists n, numeric_value v = Some n /\ CPF._cpf x = format_0d 11 n.
Proof.
  unfold CPF.__init__. destruct (CPF.clean v) as [s|e] eqn:E; cbn [bind];
    intros H; [|discriminate H].
  injection H as <-. now apply cpf_clean_inv.
Qed.

Lemma cnpj_init_inv (v : value) (x : CNPJ.t) :
  CNPJ.__init__ v = Ok x ->
  exists n, numeric_value v = Some n /\ CNPJ._cnpj x = format_0d 14 n.
Proof.
  unfold CNPJ.__init__. destruct (CNPJ.clean v) as [s|e] eqn:E; cbn [bind];
    intros H; [|discriminate H].
  injection H as <-. now apply cnpj_clean_inv.
Qed.

(** Cleaning a stored string again always succeeds. *)
Lemma cpf_clean_stored (n : Z) :
  CPF.clean (PyStr (format_0d 11 n)) = Ok (format_0d 11 (Z.abs n)).
Proof. unfold CPF.clean. now rewrite int_of_str_format_0d. Qed.

Lemma cnpj_clean_stored (n : Z) :
  CNPJ.clean (PyStr (format_0d 14 n)) = Ok (format_0d 14 (Z.abs n)).
Proof. unfold CNPJ.clean. now rewrite int_of_str_format_0d. Qed.

(** A string whose digit characters are exactly the canonical number of
    digits cleans to those digits. *)
Lemma cpf_clean_str (s : string) :
  canonical 11 (re_sub_non_digits s) ->
  CPF.clean (PyStr s) = Ok (re_sub_non_digits s).
Proof.
  intros H. transitivity (CPF.clean (PyStr (re_sub_non_digits s))).
  - unfold CPF.clean. now rewrite (re_sub_digits _ (proj2 H)).
  - apply cpf_clean_canonical, H.
Qed.

Lemma cnpj_clean_str (s : string) :
  canonical 14 (re_sub_non_digits s) ->
  CNPJ.clean (PyStr s) = Ok (re_sub_non_digits s).
Proof.
  intros H. transitivity (CNPJ.clean (PyStr (re_sub_non_digits s))).
  - unfold CNPJ.clean. now rewrite (re_sub_digits _ (proj2 H)).
  - apply cnpj_clean_canonical, H.
Qed.

End CleanFacts.

(** ** Check-digit validation *)

(** C1. For every string [d] of exactly 11 decimal digits, [CPF.validate]
    returns, without raising, the comparison of the last two characters of
    [d] with the two-character string made of the check digit
    [((sum of (i+1)*d[i], i in 0..8) mod 11) mod 10] followed by the check
    digit [((sum of i*d[i], i in 1..9) mod 11) mod 10]; it returns [True]
    exactly when the first equals [d[9]] and the second equals [d[10]]. *)
Theorem cpf_validate_check_digits (d : string) :
  canonical 11 d ->
  CPF.validate (PyStr d)
    = Ok (String.eqb (slice_last d 2)
            (Spec.two_digits (Spec.cpf_check1 d) (Spec.cpf_check2 d)))
  /\ (CPF.validate (PyStr d) = Ok true
      <-> Spec.cpf_check1 d = Spec.digit d 9
          /\ Spec.cpf_check2 d = Spec.digit d 10).
Proof.
  intros H.
  assert (E : CPF.validate (PyStr d)
    = Ok (String.eqb (slice_last d 2)
            (Spec.two_digits (Spec.cpf_check1 d) (Spec.cpf_check2 d)))).
  { unfold CPF.validate.
    rewrite cpf_clean_canonical by assumption. cbn [bind].
    rewrite cpf_dig1_canonical, cpf_dig2_canonical by assumption. cbn [bind].
    rewrite !str_of_int_digit
      by (apply cpf_check1_range || apply cpf_check2_range).
    reflexivity. }
  split; [exact E|]. rewrite E.
  generalize (Spec.cpf_check1 d) (Spec.cpf_check2 d)
             (cpf_check1_range d) (cpf_check2_range d).
  intros k1 k2 Hk1 Hk2.
  destruct H as [Hl Hd]. explode d Hl Hd.
  unfold slice_last, Spec.digit.
  cbn [String.length Nat.sub substring String.get].
  split.
  - intros E1. injection E1 as E1. now apply two_digits_eqb in E1.
  - intros E1. f_equal. now apply two_digits_eqb.
Qed.

Lemma cpf_validate_check_digits_witness :
  canonical 11 "58119443659"
  /\ Spec.cpf_check1 "58119443659" = 5
  /\ Spec.cpf_check2 "58119443659" = 9
  /\ CPF.validate (PyStr "58119443659") = Ok true.
Proof.
  assert (H : canonical 11 "58119443659") by (split; reflexivity).
  split; [exact H|]. split; [reflexivity|]. split; [reflexivity|].
  apply (proj2 (cpf_validate_check_digits "58119443659" H)).
  split; reflexivity.
Defined.

(** C2. For every string [d] of exactly 14 decimal digits, [CNPJ.validate]
    returns, without raising, the comparison of the last two characters of
    [d] with the two check digits obtained from the weight table
    [6,5,4,3,2,9,8,7,6,5,4,3,2]: the first from the sum of
    [table[i]*d[i-1]], [i] in 1..12, the second from the sum of
    [table[i]*d[i]], [i] in 0..12, each reduced by [v = sum mod 11] then
    [11 - v if v > 1 else 0]; it returns [True] exactly when they equal
    [d[12]] and [d[13]]. *)
Theorem cnpj_validate_check_digits (d : string) :
  canonical 14 d ->
  CNPJ.validate (PyStr d)
    = Ok (String.eqb (slice_last d 2)
            (Spec.two_digits (Spec.cnpj_check1 d) (Spec.cnpj_check2 d)))
  /\ (CNPJ.validate (PyStr d) = Ok true
      <-> Spec.cnpj_check1 d = Spec.digit d 12
          /\ Spec.cnpj_check2 d = Spec.digit d 13).
Proof.
  intros H.
  assert (E : CNPJ.validate (PyStr d)
    = Ok (String.eqb (slice_last d 2)
            (Spec.two_digits (Spec.cnpj_check1 d) (Spec.cnpj_check2 d)))).
  { unfold CNPJ.validate.
    rewrite cnpj_clean_canonical by assumption. cbn [bind].
    rewrite cnpj_dig1_canonical, cnpj_dig2_canonical by assumption. cbn [bind].
    rewrite !str_of_int_digit
      by (apply cnpj_check1_range || apply cnpj_check2_range).
    reflexivity. }
  split; [exact E|]. rewrite E.
  generalize (Spec.cnpj_check1 d) (Spec.cnpj_check2 d)
             (cnpj_check1_range d) (cnpj_check2_range d).
  intros k1 k2 Hk1 Hk2.
  destruct H as [Hl Hd]. explode d Hl Hd.
  unfold slice_last, Spec.digit.
  cbn [String.length Nat.sub substring String.get].
  split.
  - intros E1. injection E1 as E1. now apply two_digits_eqb in E1.
  - intros E1. f_equal. now apply two_digits_eqb.
Qed.

Lemma cnpj_validate_check_digits_witness :
  canonical 14 "58414462000135"
  /\ Spec.cnpj_check1 "58414462000135" = 3
  /\ Spec.cnpj_check2 "58414462000135" = 5
  /\ CNPJ.validate (PyStr "58414462000135") = Ok true.
Proof.
  assert (H : canonical 14 "58414462000135") by (split; reflexivity).
  split; [exact H|]. split; [reflexivity|]. split; [reflexivity|].
  apply (proj2 (cnpj_validate_check_digits "58414462000135" H)).
  split; reflexivity.
Defined.

(** C8. [CNPJ.validate(None)] returns [False] and raises nothing. *)
Theorem cnpj_validate_none : CNPJ.validate PyNone = Ok false.
Proof. reflexivity. Qed.

(** C10. [CPF.validate(None)] returns [False] and raises nothing. *)
Theorem cpf_validate_none : CPF.validate PyNone = Ok false.
Proof. reflexivity. Qed.

(** ** The default value *)

(** C6. [CPF()] and [CNPJ()] hold the all-zero digit-string; both are
    [empty] and [valid], and the check digits computed for them are 0 and 0. *)
Theorem default_empty_and_valid :
  (CPF.default = Ok (CPF.mk "00000000000")
   /\ (x <- CPF.default ;; CPF.empty x) = Ok true
   /\ (x <- CPF.default ;; CPF.valid x) = Ok true
   /\ CPF.dig1 "00000000000" = Ok 0
   /\ CPF.dig2 "00000000000" = Ok 0)
  /\ (CNPJ.default = Ok (CNPJ.mk "00000000000000")
      /\ (x <- CNPJ.default ;; CNPJ.empty x) = Ok true
      /\ (x <- CNPJ.default ;; CNPJ.valid x) = Ok true
      /\ CNPJ.dig1 "00000000000000" = Ok 0
      /\ CNPJ.dig2 "00000000000000" = Ok 0).
Proof. repeat split; vm_compute; reflexivity. Qed.

(** ** Cleaning a string without digits *)

(** C3, as the code has it. For every string that contains no digit
    character, [re.sub] leaves the empty string, [int('')] raises
    [ValueError], and so [clean] of both classes, and with it both
    constructors, raise instead of returning a digit-string. *)
Theorem clean_without_digits_raises (s : string) :
  re_sub_non_digits s = EmptyString ->
  CPF.clean (PyStr s) = Raise (invalid_literal EmptyString)
  /\ CNPJ.clean (PyStr s) = Raise (invalid_literal EmptyString)
  /\ CPF.__init__ (PyStr s) = Raise (invalid_literal EmptyString)
  /\ CNPJ.__init__ (PyStr s) = Raise (invalid_literal EmptyString).
Proof.
  intros H. unfold CPF.__init__, CNPJ.__init__, CPF.clean, CNPJ.clean.
  rewrite H. repeat split; reflexivity.
Qed.

Lemma clean_without_digits_raises_witness :
  CPF.clean (PyStr "../-") = Raise (invalid_literal EmptyString)
  /\ CNPJ.clean (PyStr "../-") = Raise (invalid_literal EmptyString)
  /\ CPF.__init__ (PyStr "../-") = Raise (invalid_literal EmptyString)
  /\ CNPJ.__init__ (PyStr "../-") = Raise (invalid_literal EmptyString).
Proof. apply (clean_without_digits_raises "../-"). reflexivity. Defined.

(** The string ["../-"] has no digit, and neither [clean] returns the
    all-zero digit-string for it. *)
Lemma no_digit_string_not_cleaned_to_zero :
  re_sub_non_digits "../-" = EmptyString
  /\ CPF.clean (PyStr "../-") <> Ok "00000000000"
  /\ CNPJ.clean (PyStr "../-") <> Ok "00000000000000".
Proof. repeat split; discriminate. Qed.

(** ** Formatting *)

Section FormatFacts.

Lemma cpf_format_r (x : CPF.t) : CPF.format x "r" = Ok (CPF._cpf x).
Proof. reflexivity. Qed.

Lemma cnpj_format_r (x : CNPJ.t) : CNPJ.format x "r" = Ok (CNPJ._cnpj x).
Proof. reflexivity. Qed.

Lemma cpf_format_f (x : CPF.t) (n : Z) :
  CPF._cpf x = format_0d 11 n ->
  CPF.format x "f"
  = (let cpf := format_0d 11 (Z.abs n) in
     Ok (slice cpf 0 3 ++ "." ++ slice cpf 3 6 ++ "." ++ slice cpf 6 9
           ++ "-" ++ slice cpf 9 11)).
Proof.
  intros H. unfold CPF.format.
  change (String.eqb "f" EmptyString || String.eqb "f" "f") with true.
  cbv iota. now rewrite H, cpf_clean_stored.
Qed.

Lemma cnpj_format_f (x : CNPJ.t) (n : Z) :
  CNPJ._cnpj x = format_0d 14 n ->
  CNPJ.format x "f"
  = (let cnpj := format_0d 14 (Z.abs n) in
     Ok (slice cnpj 0 2 ++ "." ++ slice cnpj 2 5 ++ "." ++ slice cnpj 5 8
           ++ "/" ++ slice cnpj 8 12 ++ "-" ++ slice cnpj 12 14)).
Proof.
  intros H. unfold CNPJ.format.
  change (String.eqb "f" EmptyString || String.eqb "f" "f") with true.
  cbv iota. now rewrite H, cnpj_clean_stored.
Qed.

(** The digits of the punctuated form are the first 11 (14) characters of
    the cleaned string. *)
Lemma cpf_punctuation_stripped (c : string) :
  all_digits c = true -> (11 <= String.length c)%nat ->
  re_sub_non_digits
    (slice c 0 3 ++ "." ++ slice c 3 6 ++ "." ++ slice c 6 9
       ++ "-" ++ slice c 9 11)
  = substring 0 11 c.
Proof.
  intros Hd Hl. unfold slice. rewrite !re_sub_append.
  change (re_sub_non_digits ".") with EmptyString.
  change (re_sub_non_digits "-") with EmptyString.
  rewrite !re_sub_digits by now apply all_digits_substring.
  cbn [append Nat.sub].
  pose proof (substring_split c 6 3 2 ltac:(cbn; lia)) as E; cbn [Nat.add] in E; rewrite E; clear E.
  pose proof (substring_split c 3 3 5 ltac:(cbn; lia)) as E; cbn [Nat.add] in E; rewrite E; clear E.
  pose proof (substring_split c 0 3 8 ltac:(cbn; lia)) as E; cbn [Nat.add] in E; rewrite E; clear E.
  reflexivity.
Qed.

Lemma cnpj_punctuation_stripped (c : string) :
  all_digits c = true -> (14 <= String.length c)%nat ->
  re_sub_non_digits
    (slice c 0 2 ++ "." ++ slice c 2 5 ++ "." ++ slice c 5 8
       ++ "/" ++ slice c 8 12 ++ "-" ++ slice c 12 14)
  = substring 0 14 c.
Proof.
  intros Hd Hl. unfold slice. rewrite !re_sub_append.
  change (re_sub_non_digits ".") with EmptyString.
  change (re_sub_non_digits "/") with EmptyString.
  change (re_sub_non_digits "-") with EmptyString.
  rewrite !re_sub_digits by now apply all_digits_substring.
  cbn [append Nat.sub].
  pose proof (substring_split c 8 4 2 ltac:(cbn; lia)) as E; cbn [Nat.add] in E; rewrite E; clear E.
  pose proof (substring_split c 5 3 6 ltac:(cbn; lia)) as E; cbn [Nat.add] in E; rewrite E; clear E.
  pose proof (substring_split c 2 3 9 ltac:(cbn; lia)) as E; cbn [Nat.add] in E; rewrite E; clear E.
  pose proof (substring_split c 0 2 12 ltac:(cbn; lia)) as E; cbn [Nat.add] in E; rewrite E; clear E.
  reflexivity.
Qed.

Lemma canonical_prefix (w : nat) (c : string) :
  all_digits c = true -> (w <= String.length c)%nat ->
  canonical w (substring 0 w c).
Proof.
  intros Hd Hl. split.
  - apply length_substring. lia.
  - now apply all_digits_substring.
Qed.

(** What [clean(x.format('f'))] evaluates to for a stored [0wd] rendering. *)
Lemma cpf_clean_format_f (x : CPF.t) (n : Z) :
  CPF._cpf x = format_0d 11 n ->
  (p <- CPF.format x "f" ;; CPF.clean (PyStr p))
  = Ok (substring 0 11 (format_0d 11 (Z.abs n))).
Proof.
  intros H. rewrite (cpf_format_f x n H). cbv zeta. cbn [bind].
  pose proof (all_digits_format_0d 11 (Z.abs n) (Z.abs_nonneg n)) as Hd.
  pose proof (length_format_0d 11 (Z.abs n)) as Hl.
  rewrite cpf_clean_str; rewrite cpf_punctuation_stripped by assumption.
  - reflexivity.
  - now apply canonical_prefix.
Qed.

Lemma cnpj_clean_format_f (x : CNPJ.t) (n : Z) :
  CNPJ._cnpj x = format_0d 14 n ->
  (p <- CNPJ.format x "f" ;; CNPJ.clean (PyStr p))
  = Ok (substring 0 14 (format_0d 14 (Z.abs n))).
Proof.
  intros H. rewrite (cnpj_format_f x n H). cbv zeta. cbn [bind].
  pose proof (all_digits_format_0d 14 (Z.abs n) (Z.abs_nonneg n)) as Hd.
  pose proof (length_format_0d 14 (Z.abs n)) as Hl.
  rewrite cnpj_clean_str; rewrite cnpj_punctuation_stripped by assumption.
  - reflexivity.
  - now apply canonical_prefix.
Qed.

(** The prefix of the re-cleaned string is the stored string exactly when
    the stored string is canonical. *)
Lemma prefix_abs_iff (w : nat) (n : Z) :
  substring 0 (S w) (format_0d (S w) (Z.abs n)) = format_0d (S w) n
  <-> canonical (S w) (format_0d (S w) n).
Proof.
  split.
  - intros <-. apply canonical_prefix.
    + apply all_digits_format_0d, Z.abs_nonneg.
    + apply length_format_0d.
  - intros H. pose proof H as [Hl _].
    apply canonical_format_0d_iff in H.
    rewrite Z.abs_eq by lia. rewrite <- Hl at 1. apply substring_all.
Qed.

End FormatFacts.

(** ** Round trip through the punctuated form *)

(** C4, as the code has it. Every constructed value [x] stores the [0wd]
    rendering of the number [n] its input denotes.  [clean(x.format('f'))]
    equals [x.format('r')] exactly when the stored string is made of exactly
    11 (CPF) or 14 (CNPJ) decimal digits, that is exactly when
    [0 <= n < 10^11] (resp. [10^14]).  For the other constructed values, built
    from a negative or a wider integer, the two differ. *)
Theorem clean_format_roundtrip (v : value) :
  (forall x, CPF.__init__ v = Ok x ->
     exists n, numeric_value v = Some n
       /\ ((p <- CPF.format x "f" ;; CPF.clean (PyStr p)) = CPF.format x "r"
           <-> canonical 11 (CPF._cpf x))
       /\ (canonical 11 (CPF._cpf x) <-> 0 <= n < 10 ^ 11))
  /\ (forall y, CNPJ.__init__ v = Ok y ->
     exists n, numeric_value v = Some n
       /\ ((p <- CNPJ.format y "f" ;; CNPJ.clean (PyStr p)) = CNPJ.format y "r"
           <-> canonical 14 (CNPJ._cnpj y))
       /\ (canonical 14 (CNPJ._cnpj y) <-> 0 <= n < 10 ^ 14)).
Proof.
  split; intros x H.
  - destruct (cpf_init_inv v x H) as (n & Hn & E). exists n.
    split; [exact Hn|]. split.
    + rewrite (cpf_clean_format_f x n E), cpf_format_r, E.
      rewrite <- (prefix_abs_iff 10 n).
      split; [intros G; now injection G | intros ->; reflexivity].
    + rewrite E. apply (canonical_format_0d_iff 10 n).
  - destruct (cnpj_init_inv v x H) as (n & Hn & E). exists n.
    split; [exact Hn|]. split.
    + rewrite (cnpj_clean_format_f x n E), cnpj_format_r, E.
      rewrite <- (prefix_abs_iff 13 n).
      split; [intros G; now injection G | intros ->; reflexivity].
    + rewrite E. apply (canonical_format_0d_iff 13 n).
Qed.

Lemma clean_format_roundtrip_witness :
  (p <- CPF.format (CPF.mk "58119443659") "f" ;; CPF.clean (PyStr p))
    = CPF.format (CPF.mk "58119443659") "r"
  /\ (p <- CNPJ.format (CNPJ.mk "00058119443659") "f" ;; CNPJ.clean (PyStr p))
    = CNPJ.format (CNPJ.mk "00058119443659") "r".
Proof.
  split.
  - destruct (proj1 (clean_format_roundtrip (PyInt 58119443659))
                (CPF.mk "58119443659") eq_refl) as (n & _ & H & _).
    apply H. split; reflexivity.
  - destruct (proj2 (clean_format_roundtrip (PyInt 58119443659))
                (CNPJ.mk "00058119443659") eq_refl) as (n & _ & H & _).
    apply H. split; reflexivity.
Defined.

(** [CPF(123456789012)] is constructed, yet cleaning its punctuated form
    gives 11 characters where the raw form has 12; [CNPJ(-5)] likewise loses
    its sign. *)
Lemma roundtrip_broken_by_wide_input :
  CPF.__init__ (PyInt 123456789012) = Ok (CPF.mk "123456789012")
  /\ (p <- CPF.format (CPF.mk "123456789012") "f" ;; CPF.clean (PyStr p))
     = Ok "12345678901"
  /\ CPF.format (CPF.mk "123456789012") "r" = Ok "123456789012"
  /\ (p <- CPF.format (CPF.mk "123456789012") "f" ;; CPF.clean (PyStr p))
     <> CPF.format (CPF.mk "123456789012") "r"
  /\ CNPJ.__init__ (PyInt (-5)) = Ok (CNPJ.mk "-0000000000005")
  /\ (p <- CNPJ.format (CNPJ.mk "-0000000000005") "f" ;; CNPJ.clean (PyStr p))
     <> CNPJ.format (CNPJ.mk "-0000000000005") "r".
Proof. repeat split; try reflexivity; vm_compute; discriminate. Qed.

(** ** Width of the stored digit-string *)

Section WidthFacts.

Lemma str_of_int_nonneg (n : Z) : 0 <= n -> str_of_int n = str_of_nonneg n.
Proof.
  intros H. unfold str_of_int.
  now replace (n <? 0) with false by (symmetry; apply Z.ltb_ge; lia).
Qed.

(** The shortest numeral of a number of more than [w] digits is longer
    than [w]. *)
Lemma length_str_of_nonneg_wide (w : nat) (n : Z) :
  10 ^ Z.of_nat w <= n -> (w < String.length (str_of_nonneg n))%nat.
Proof.
  intros H. pose proof (pow10_pos w) as Hp.
  pose proof (parse_bound _ (str_of_nonneg n)
                (conj eq_refl (all_digits_decimal _ _))) as Hs.
  rewrite parse_str_of_nonneg in Hs by lia.
  destruct (Nat.lt_ge_cases w (String.length (str_of_nonneg n))) as [G|G];
    [assumption|].
  assert (10 ^ Z.of_nat (String.length (str_of_nonneg n)) <= 10 ^ Z.of_nat w)
    by (apply Z.pow_le_mono_r; lia).
  lia.
Qed.

Lemma format_0d_wide (w : nat) (n : Z) :
  10 ^ Z.of_nat w <= n ->
  format_0d w n = str_of_int n /\ (w < String.length (format_0d w n))%nat.
Proof.
  intros H. pose proof (pow10_pos w) as Hp.
  pose proof (length_str_of_nonneg_wide w n H) as Hl.
  rewrite format_0d_nonneg, str_of_int_nonneg by lia.
  unfold zfill. replace (w - String.length (str_of_nonneg n))%nat with 0%nat by lia.
  cbn [zeros append]. now split.
Qed.

Lemma format_0d_padded (w : nat) (n : Z) :
  0 <= n < 10 ^ Z.of_nat (S w) ->
  canonical (S w) (format_0d (S w) n)
  /\ format_0d (S w) n
     = zeros (S w - String.length (str_of_int n)) ++ str_of_int n.
Proof.
  intros H. split.
  - now apply canonical_format_0d_iff.
  - rewrite format_0d_nonneg, str_of_int_nonneg by lia. reflexivity.
Qed.

End WidthFacts.

(** C5, as the code has it. When the input denotes a number [n] with
    [0 <= n < 10^11] (CPF) or [0 <= n < 10^14] (CNPJ), the constructor
    succeeds and stores exactly 11 (14) characters, all decimal digits: the
    shortest decimal numeral of [n] with zeros added on the left. *)
Theorem stored_width (v : value) (n : Z) :
  numeric_value v = Some n ->
  (0 <= n < 10 ^ 11 ->
     exists x, CPF.__init__ v = Ok x
       /\ String.length (CPF._cpf x) = 11%nat
       /\ all_digits (CPF._cpf x) = true
       /\ CPF._cpf x = zeros (11 - String.length (str_of_int n)) ++ str_of_int n)
  /\ (0 <= n < 10 ^ 14 ->
     exists y, CNPJ.__init__ v = Ok y
       /\ String.length (CNPJ._cnpj y) = 14%nat
       /\ all_digits (CNPJ._cnpj y) = true
       /\ CNPJ._cnpj y = zeros (14 - String.length (str_of_int n)) ++ str_of_int n).
Proof.
  intros Hv.
  unfold CPF.__init__, CNPJ.__init__.
  rewrite (cpf_clean_numeric v n Hv), (cnpj_clean_numeric v n Hv). cbn [bind].
  split; intros H; eexists; (split; [reflexivity|]);
    cbn [CPF._cpf CNPJ._cnpj].
  - destruct (format_0d_padded 10 n H) as [[Hl Hd] E]. now rewrite <- E.
  - destruct (format_0d_padded 13 n H) as [[Hl Hd] E]. now rewrite <- E.
Qed.

Lemma stored_width_witness :
  (exists x, CPF.__init__ (PyStr "000.000.000-05") = Ok x
     /\ String.length (CPF._cpf x) = 11%nat
     /\ all_digits (CPF._cpf x) = true
     /\ CPF._cpf x = zeros (11 - String.length (str_of_int 5)) ++ str_of_int 5)
  /\ (exists y, CNPJ.__init__ (PyStr "000.000.000-05") = Ok y
        /\ String.length (CNPJ._cnpj y) = 14%nat
        /\ all_digits (CNPJ._cnpj y) = true
        /\ CNPJ._cnpj y = zeros (14 - String.length (str_of_int 5)) ++ str_of_int 5).
Proof.
  destruct (stored_width (PyStr "000.000.000-05") 5 eq_refl) as [H1 H2].
  split; [apply H1 | apply H2]; lia.
Defined.

(** X16. Beyond the canonical range nothing is cut off: when the input
    denotes a number [n >= 10^11] (CPF) or [n >= 10^14] (CNPJ) the
    constructor succeeds and the stored string is the plain decimal numeral
    of [n], longer than the canonical width. *)
Lemma overflow_stored_unpadded (v : value) (n : Z) :
  numeric_value v = Some n ->
  (10 ^ 11 <= n ->
     exists x, CPF.__init__ v = Ok x
       /\ CPF._cpf x = str_of_int n
       /\ (11 < String.length (CPF._cpf x))%nat)
  /\ (10 ^ 14 <= n ->
     exists y, CNPJ.__init__ v = Ok y
       /\ CNPJ._cnpj y = str_of_int n
       /\ (14 < String.length (CNPJ._cnpj y))%nat).
Proof.
  intros Hv.
  unfold CPF.__init__, CNPJ.__init__.
  rewrite (cpf_clean_numeric v n Hv), (cnpj_clean_numeric v n Hv). cbn [bind].
  split; intros H; eexists; (split; [reflexivity|]);
    cbn [CPF._cpf CNPJ._cnpj].
  - apply (format_0d_wide 11 n H).
  - apply (format_0d_wide 14 n H).
Qed.

(** [CPF(123456789012)] stores 12 characters and [CNPJ('')] is not
    constructed at all. *)
Lemma wide_input_stored_longer :
  0 <= 123456789012
  /\ CPF.__init__ (PyInt 123456789012) = Ok (CPF.mk "123456789012")
  /\ String.length (CPF._cpf (CPF.mk "123456789012")) <> 11%nat
  /\ CNPJ.__init__ (PyStr EmptyString) = Raise (invalid_literal EmptyString).
Proof. repeat split; try reflexivity; [lia | discriminate]. Qed.

(** ** Format specifications *)

(** C7. On a constructed value of either class, [format] with a
    specification other than the empty one, ['f'] and ['r'] raises
    [ValueError] with the message
    [Unknown format code '<spec>' for object of type '<class name>'];
    with one of those three it returns a string. *)
Theorem format_spec_dispatch (v : value) (format_spec : string) :
  (forall x, CPF.__init__ v = Ok x ->
     (format_spec <> EmptyString -> format_spec <> "f" -> format_spec <> "r" ->
        CPF.format x format_spec
        = Raise (ValueError ("Unknown format code '" ++ format_spec
                               ++ "' for object of type 'CPF'")))
     /\ (format_spec = EmptyString \/ format_spec = "f" \/ format_spec = "r" ->
           exists s, CPF.format x format_spec = Ok s))
  /\ (forall y, CNPJ.__init__ v = Ok y ->
     (format_spec <> EmptyString -> format_spec <> "f" -> format_spec <> "r" ->
        CNPJ.format y format_spec
        = Raise (ValueError ("Unknown format code '" ++ format_spec
                               ++ "' for object of type 'CNPJ'")))
     /\ (format_spec = EmptyString \/ format_spec = "f" \/ format_spec = "r" ->
           exists s, CNPJ.format y format_spec = Ok s)).
Proof.
  split; intros x H; split.
  - intros H1 H2 H3. apply String.eqb_neq in H1, H2, H3.
    unfold CPF.format. now rewrite H1, H2, H3.
  - destruct (cpf_init_inv v x H) as (n & _ & E).
    intros [-> | [-> | ->]].
    + change (CPF.format x EmptyString) with (CPF.format x "f").
      rewrite (cpf_format_f x n E). eexists. reflexivity.
    + rewrite (cpf_format_f x n E). eexists. reflexivity.
    + eexists. apply cpf_format_r.
  - intros H1 H2 H3. apply String.eqb_neq in H1, H2, H3.
    unfold CNPJ.format. now rewrite H1, H2, H3.
  - destruct (cnpj_init_inv v x H) as (n & _ & E).
    intros [-> | [-> | ->]].
    + change (CNPJ.format x EmptyString) with (CNPJ.format x "f").
      rewrite (cnpj_format_f x n E). eexists. reflexivity.
    + rewrite (cnpj_format_f x n E). eexists. reflexivity.
    + eexists. apply cnpj_format_r.
Qed.

Lemma format_spec_dispatch_witness :
  CPF.format (CPF.mk "58119443659") "d"
    = Raise (ValueError "Unknown format code 'd' for object of type 'CPF'")
  /\ CNPJ.format (CNPJ.mk "00058119443659") "d"
    = Raise (ValueError "Unknown format code 'd' for object of type 'CNPJ'")
  /\ (exists s, CPF.format (CPF.mk "58119443659") "r" = Ok s)
  /\ (exists s, CNPJ.format (CNPJ.mk "00058119443659") "r" = Ok s).
Proof.
  destruct (format_spec_dispatch (PyInt 58119443659) "d") as [Hd1 Hd2].
  destruct (format_spec_dispatch (PyInt 58119443659) "r") as [Hr1 Hr2].
  split; [|split; [|split]].
  - apply (proj1 (Hd1 (CPF.mk "58119443659") eq_refl)); discriminate.
  - apply (proj1 (Hd2 (CNPJ.mk "00058119443659") eq_refl)); discriminate.
  - apply (proj2 (Hr1 (CPF.mk "58119443659") eq_refl)). right. right. reflexivity.
  - apply (proj2 (Hr2 (CNPJ.mk "00058119443659") eq_refl)). right. right. reflexivity.
Defined.

(** ** Root and branch of a CNPJ *)

(** C9. For every constructed CNPJ the stored string is [raiz] followed by
    [extensao] followed by the remaining characters, with [raiz] of length 8
    and [extensao] of length 4; no validity is involved.  For
    [CNPJ(58414462000135)] they are ['58414462'] and ['0001'], and they are
    the same for the invalid [CNPJ(58414462000136)]. *)
Theorem raiz_extensao_substrings :
  (forall (v : value) (x : CNPJ.t), CNPJ.__init__ v = Ok x ->
     String.length (CNPJ.raiz x) = 8%nat
     /\ String.length (CNPJ.extensao x) = 4%nat
     /\ exists rest, CNPJ._cnpj x = CNPJ.raiz x ++ CNPJ.extensao x ++ rest)
  /\ (x <- CNPJ.__init__ (PyInt 58414462000135) ;;
      Ok (CNPJ.raiz x, CNPJ.extensao x)) = Ok ("58414462", "0001")
  /\ (x <- CNPJ.__init__ (PyInt 58414462000136) ;;
      b <- CNPJ.valid x ;;
      Ok (b, CNPJ.raiz x, CNPJ.extensao x)) = Ok (false, "58414462", "0001").
Proof.
  split; [|split; reflexivity].
  intros v x H. destruct (cnpj_init_inv v x H) as (n & _ & E).
  pose proof (length_format_0d 14 n) as Hl. rewrite <- E in Hl.
  unfold CNPJ.raiz, CNPJ.extensao, slice. cbn [Nat.sub].
  set (s := CNPJ._cnpj x) in *.
  split; [apply length_substring; cbn; lia|].
  split; [apply length_substring; cbn; lia|].
  exists (substring 12 (String.length s - 12) s).
  rewrite <- append_assoc.
  pose proof (substring_split s 0 8 4 ltac:(cbn; lia)) as E1.
  cbn [Nat.add] in E1. rewrite E1.
  pose proof (substring_split s 0 12 (String.length s - 12) ltac:(cbn; lia)) as E2.
  change (0 + 12)%nat with 12%nat in E2. rewrite E2.
  replace (12 + (String.length s - 12))%nat with (String.length s) by lia.
  symmetry. apply substring_all.
Qed.

Lemma raiz_extensao_substrings_witness :
  String.length (CNPJ.raiz (CNPJ.mk "58414462000135")) = 8%nat
  /\ String.length (CNPJ.extensao (CNPJ.mk "58414462000135")) = 4%nat
  /\ exists rest, "58414462000135"
       = CNPJ.raiz (CNPJ.mk "58414462000135")
           ++ CNPJ.extensao (CNPJ.mk "58414462000135") ++ rest.
Proof.
  exact (proj1 raiz_extensao_substrings (PyStr "58.414.462/0001-35")
           (CNPJ.mk "58414462000135") eq_refl).
Defined.

(** * Further properties of the two classes *)

(** ** Reading a stored string back *)

Section ReadBack.

Lemma zfill_nonempty (k : nat) (m : Z) :
  zfill k (str_of_nonneg m) <> EmptyString.
Proof.
  intros E. apply (f_equal String.length) in E.
  rewrite length_zfill in E. cbn [String.length] in E.
  pose proof (length_decimal_pos (Z.to_nat (Z.log2 m)) m).
  unfold str_of_nonneg in E. lia.
Qed.

Lemma parse_zfill (k : nat) (m : Z) :
  0 <= m -> parse_digits 0 (zfill k (str_of_nonneg m)) = m.
Proof.
  intros H. unfold zfill. now rewrite parse_zeros_app, parse_str_of_nonneg.
Qed.

(** [int] undoes the format [0wd], sign included. *)
Lemma int_of_str_stored (w : nat) (n : Z) :
  int_of_str (format_0d w n) = Ok n.
Proof.
  destruct (Z.lt_ge_cases n 0) as [Hn|Hn].
  - rewrite format_0d_neg by assumption.
    pose proof (zfill_nonempty (w - 1) (- n)) as Hne.
    pose proof (all_digits_zfill (w - 1) _ (all_digits_decimal
                  (S (Z.to_nat (Z.log2 (- n)))) (- n))) as Hd.
    fold (str_of_nonneg (- n)) in Hd.
    pose proof (parse_zfill (w - 1) (- n) ltac:(lia)) as Hp.
    destruct (zfill (w - 1) (str_of_nonneg (- n))) as [|c t]; [congruence|].
    unfold int_of_str. change (Ascii.eqb "-" "-") with true. cbv iota.
    unfold is_numeral. rewrite Hd, Hp. f_equal. lia.
  - rewrite format_0d_nonneg by assumption.
    rewrite int_of_str_digits.
    + now rewrite parse_zfill.
    + apply all_digits_zfill, all_digits_decimal.
    + apply zfill_nonempty.
Qed.

End ReadBack.

(** X1. A constructed value is [empty] exactly when the number its input
    denotes is zero; [empty] never raises on a constructed value, whatever
    the sign or size of that number. *)
Theorem empty_iff_zero (v : value) :
  (forall x, CPF.__init__ v = Ok x ->
     exists n, numeric_value v = Some n /\ CPF.empty x = Ok (n =? 0))
  /\ (forall y, CNPJ.__init__ v = Ok y ->
     exists n, numeric_value v = Some n /\ CNPJ.empty y = Ok (n =? 0)).
Proof.
  split; intros x H.
  - destruct (cpf_init_inv v x H) as (n & Hn & E). exists n.
    split; [exact Hn|]. unfold CPF.empty. now rewrite E, int_of_str_stored.
  - destruct (cnpj_init_inv v x H) as (n & Hn & E). exists n.
    split; [exact Hn|]. unfold CNPJ.empty. now rewrite E, int_of_str_stored.
Qed.

Lemma empty_iff_zero_witness :
  (exists n, numeric_value (PyStr "a0-0") = Some n
     /\ CPF.empty (CPF.mk "00000000000") = Ok (n =? 0))
  /\ (exists n, numeric_value (PyStr "a0-0") = Some n
     /\ CNPJ.empty (CNPJ.mk "00000000000000") = Ok (n =? 0)).
Proof.
  split.
  - exact (proj1 (empty_iff_zero (PyStr "a0-0")) (CPF.mk "00000000000") eq_refl).
  - exact (proj2 (empty_iff_zero (PyStr "a0-0")) (CNPJ.mk "00000000000000") eq_refl).
Defined.

(** X2. Distinct integers are never cleaned to the same string: [clean] is
    injective on integers in both classes, also beyond the canonical width
    and for negative numbers. *)
Theorem clean_injective (n m : Z) :
  n <> m ->
  CPF.clean (PyInt n) <> CPF.clean (PyInt m)
  /\ CNPJ.clean (PyInt n) <> CNPJ.clean (PyInt m).
Proof.
  intros Hnm.
  split; cbn [CPF.clean CNPJ.clean]; intros H; injection H as H;
    apply (f_equal int_of_str) in H; rewrite !int_of_str_stored in H;
    now injection H.
Qed.

Lemma clean_injective_witness :
  CPF.clean (PyInt 5) <> CPF.clean (PyInt (-5))
  /\ CNPJ.clean (PyInt 5) <> CNPJ.clean (PyInt (-5)).
Proof. apply (clean_injective 5 (-5)). discriminate. Defined.

(** ** Inputs that denote the same number *)

Section SameNumber.

Lemma cpf_validate_numeric (v : value) (n : Z) :
  numeric_value v = Some n -> CPF.validate v = CPF.validate (PyInt n).
Proof.
  intros H. destruct v as [|m|s].
  - discriminate H.
  - now injection H as ->.
  - unfold CPF.validate. now rewrite (cpf_clean_numeric _ n H).
Qed.

Lemma cnpj_validate_numeric (v : value) (n : Z) :
  numeric_value v = Some n -> CNPJ.validate v = CNPJ.validate (PyInt n).
Proof.
  intros H. destruct v as [|m|s].
  - discriminate H.
  - now injection H as ->.
  - unfold CNPJ.validate. now rewrite (cnpj_clean_numeric _ n H).
Qed.

End SameNumber.

(** X3. [clean], [validate] and the constructor of either class see their
    input only through the number it denotes: an integer and any string
    whose digit characters spell it, whatever punctuation or leading zeros
    surround them, give the same result. *)
Theorem same_number_same_result (v1 v2 : value) (n : Z) :
  numeric_value v1 = Some n -> numeric_value v2 = Some n ->
  (CPF.clean v1 = CPF.clean v2
   /\ CPF.validate v1 = CPF.validate v2
   /\ CPF.__init__ v1 = CPF.__init__ v2)
  /\ (CNPJ.clean v1 = CNPJ.clean v2
      /\ CNPJ.validate v1 = CNPJ.validate v2
      /\ CNPJ.__init__ v1 = CNPJ.__init__ v2).
Proof.
  intros H1 H2. unfold CPF.__init__, CNPJ.__init__.
  rewrite (cpf_validate_numeric v1 n H1), (cpf_validate_numeric v2 n H2).
  rewrite (cnpj_validate_numeric v1 n H1), (cnpj_validate_numeric v2 n H2).
  rewrite (cpf_clean_numeric v1 n H1), (cpf_clean_numeric v2 n H2).
  rewrite (cnpj_clean_numeric v1 n H1), (cnpj_clean_numeric v2 n H2).
  repeat split.
Qed.

Lemma same_number_same_result_witness :
  (CPF.clean (PyStr "0058.414.462/0001-35") = CPF.clean (PyInt 58414462000135)
   /\ CPF.validate (PyStr "0058.414.462/0001-35") = CPF.validate (PyInt 58414462000135)
   /\ CPF.__init__ (PyStr "0058.414.462/0001-35") = CPF.__init__ (PyInt 58414462000135))
  /\ (CNPJ.clean (PyStr "0058.414.462/0001-35") = CNPJ.clean (PyInt 58414462000135)
      /\ CNPJ.validate (PyStr "0058.414.462/0001-35") = CNPJ.validate (PyInt 58414462000135)
      /\ CNPJ.__init__ (PyStr "0058.414.462/0001-35") = CNPJ.__init__ (PyInt 58414462000135)).
Proof.
  exact (same_number_same_result (PyStr "0058.414.462/0001-35")
           (PyInt 58414462000135) 58414462000135 eq_refl eq_refl).
Defined.

(** X4. Cleaning is idempotent on inputs that denote a non-negative number:
    [clean(clean(v)) == clean(v)], also when the number is wider than the
    canonical width.  For a negative integer the second cleaning drops the
    sign and returns the cleaning of its absolute value. *)
Theorem clean_idempotent (v : value) (n : Z) :
  numeric_value v = Some n ->
  ((s <- CPF.clean v ;; CPF.clean (PyStr s)) = CPF.clean (PyInt (Z.abs n))
   /\ (s <- CNPJ.clean v ;; CNPJ.clean (PyStr s)) = CNPJ.clean (PyInt (Z.abs n)))
  /\ (0 <= n ->
      (s <- CPF.clean v ;; CPF.clean (PyStr s)) = CPF.clean v
      /\ (s <- CNPJ.clean v ;; CNPJ.clean (PyStr s)) = CNPJ.clean v).
Proof.
  intros H.
  rewrite (cpf_clean_numeric v n H), (cnpj_clean_numeric v n H). cbn [bind].
  rewrite cpf_clean_stored, cnpj_clean_stored.
  split; [split; reflexivity|].
  intros Hn. rewrite Z.abs_eq by assumption. split; reflexivity.
Qed.

Lemma clean_idempotent_witness :
  (s <- CPF.clean (PyStr "581.194.436-59") ;; CPF.clean (PyStr s))
    = CPF.clean (PyStr "581.194.436-59")
  /\ (s <- CNPJ.clean (PyStr "581.194.436-59") ;; CNPJ.clean (PyStr s))
    = CNPJ.clean (PyStr "581.194.436-59").
Proof.
  apply (proj2 (clean_idempotent (PyStr "581.194.436-59") 58119443659 eq_refl)).
  lia.
Defined.

(** ** Validation outside the canonical strings *)

(** X5. [validate] of either class raises [ValueError] on every negative
    integer: the cleaned string starts with the sign, and the first digit
    conversion [int('-')] fails. *)
Theorem validate_negative_raises (n : Z) :
  n < 0 ->
  CPF.validate (PyInt n) = Raise (invalid_literal "-")
  /\ CNPJ.validate (PyInt n) = Raise (invalid_literal "-").
Proof.
  intros H. unfold CPF.validate, CNPJ.validate.
  cbn [CPF.clean CNPJ.clean bind].
  rewrite !format_0d_neg by assumption.
  split; reflexivity.
Qed.

Lemma validate_negative_raises_witness :
  CPF.validate (PyInt (-58119443659)) = Raise (invalid_literal "-")
  /\ CNPJ.validate (PyInt (-58119443659)) = Raise (invalid_literal "-").
Proof. apply (validate_negative_raises (-58119443659)). reflexivity. Defined.

Section DigitsOfLongStrings.

(** The check digits read only the first 9, 10, 12 or 13 characters, so the
    computation goes through on any longer run of digits as well. *)
Lemma cpf_dig1_digits (d : string) :
  all_digits d = true -> (11 <= String.length d)%nat ->
  CPF.dig1 d = Ok (Spec.cpf_check1 d).
Proof.
  intros Hd Hl. do 11 (explode_head d Hl Hd).
  unfold CPF.dig1, range.
  cbn [Nat.sub seq comprehension getitem String.get bind].
  rewrite !int_of_str_digit by assumption; cbn [bind].
  unfold CPF.mod11, Spec.cpf_check1, Spec.sigma, Spec.digit, sum.
  cbn [Nat.sub seq fold_left fold_right String.get].
  do 3 f_equal. lia.
Qed.

Lemma cpf_dig2_digits (d : string) :
  all_digits d = true -> (11 <= String.length d)%nat ->
  CPF.dig2 d = Ok (Spec.cpf_check2 d).
Proof.
  intros Hd Hl. do 11 (explode_head d Hl Hd).
  unfold CPF.dig2, range.
  cbn [Nat.sub seq comprehension getitem String.get bind].
  rewrite !int_of_str_digit by assumption; cbn [bind].
  unfold CPF.mod11, Spec.cpf_check2, Spec.sigma, Spec.digit, sum.
  cbn [Nat.sub seq fold_left fold_right String.get].
  do 3 f_equal. lia.
Qed.

Lemma cnpj_dig1_digits (d : string) :
  all_digits d = true -> (14 <= String.length d)%nat ->
  CNPJ.dig1 d = Ok (Spec.cnpj_check1 d).
Proof.
  intros Hd Hl. do 14 (explode_head d Hl Hd).
  unfold CNPJ.dig1, range, CNPJ.digitos_validacao.
  cbn [Nat.sub seq comprehension list_getitem nth_error getitem String.get bind].
  rewrite !int_of_str_digit by assumption; cbn [bind].
  rewrite cnpj_mod11_reduce.
  unfold Spec.cnpj_check1, Spec.sigma, Spec.digit, Spec.weight, Spec.table, sum.
  cbn [Nat.sub seq fold_left fold_right String.get nth].
  do 2 f_equal. lia.
Qed.

Lemma cnpj_dig2_digits (d : string) :
  all_digits d = true -> (14 <= String.length d)%nat ->
  CNPJ.dig2 d = Ok (Spec.cnpj_check2 d).
Proof.
  intros Hd Hl. do 14 (explode_head d Hl Hd).
  unfold CNPJ.dig2, range, CNPJ.digitos_validacao.
  cbn [Nat.sub seq comprehension list_getitem nth_error getitem String.get bind].
  rewrite !int_of_str_digit by assumption; cbn [bind].
  rewrite cnpj_mod11_reduce.
  unfold Spec.cnpj_check2, Spec.sigma, Spec.digit, Spec.weight, Spec.table, sum.
  cbn [Nat.sub seq fold_left fold_right String.get nth].
  do 2 f_equal. lia.
Qed.

Lemma cpf_validate_int (n : Z) :
  0 <= n ->
  CPF.validate (PyInt n)
  = Ok (String.eqb (slice_last (format_0d 11 n) 2)
          (Spec.two_digits (Spec.cpf_check1 (format_0d 11 n))
                           (Spec.cpf_check2 (format_0d 11 n)))).
Proof.
  intros H. unfold CPF.validate. cbn [CPF.clean bind].
  pose proof (all_digits_format_0d 11 n H) as Hd.
  pose proof (length_format_0d 11 n) as Hl.
  rewrite cpf_dig1_digits, cpf_dig2_digits by assumption. cbn [bind].
  rewrite !str_of_int_digit
    by (apply cpf_check1_range || apply cpf_check2_range).
  reflexivity.
Qed.

Lemma cnpj_validate_int (n : Z) :
  0 <= n ->
  CNPJ.validate (PyInt n)
  = Ok (String.eqb (slice_last (format_0d 14 n) 2)
          (Spec.two_digits (Spec.cnpj_check1 (format_0d 14 n))
                           (Spec.cnpj_check2 (format_0d 14 n)))).
Proof.
  intros H. unfold CNPJ.validate. cbn [CNPJ.clean bind].
  pose proof (all_digits_format_0d 14 n H) as Hd.
  pose proof (length_format_0d 14 n) as Hl.
  rewrite cnpj_dig1_digits, cnpj_dig2_digits by assumption. cbn [bind].
  rewrite !str_of_int_digit
    by (apply cnpj_check1_range || apply cnpj_check2_range).
  reflexivity.
Qed.

End DigitsOfLongStrings.

(** X6. On every input that denotes a non-negative number [n], an integer
    or a punctuated string, of canonical width or wider, [validate] returns
    a boolean and raises nothing: the comparison of the last two characters
    of the cleaned string with the two check digits computed from its
    leading characters. *)
Theorem validate_nonneg_returns (v : value) (n : Z) :
  numeric_value v = Some n -> 0 <= n ->
  CPF.validate v
    = Ok (String.eqb (slice_last (format_0d 11 n) 2)
            (Spec.two_digits (Spec.cpf_check1 (format_0d 11 n))
                             (Spec.cpf_check2 (format_0d 11 n))))
  /\ CNPJ.validate v
    = Ok (String.eqb (slice_last (format_0d 14 n) 2)
            (Spec.two_digits (Spec.cnpj_check1 (format_0d 14 n))
                             (Spec.cnpj_check2 (format_0d 14 n)))).
Proof.
  intros Hv Hn.
  rewrite (cpf_validate_numeric v n Hv), (cnpj_validate_numeric v n Hv).
  split; [now apply cpf_validate_int | now apply cnpj_validate_int].
Qed.

Lemma validate_nonneg_returns_witness :
  CPF.validate (PyStr "123.456.789-012")
    = Ok (String.eqb (slice_last (format_0d 11 123456789012) 2)
            (Spec.two_digits (Spec.cpf_check1 (format_0d 11 123456789012))
                             (Spec.cpf_check2 (format_0d 11 123456789012))))
  /\ CNPJ.validate (PyStr "123.456.789-012")
    = Ok (String.eqb (slice_last (format_0d 14 123456789012) 2)
            (Spec.two_digits (Spec.cnpj_check1 (format_0d 14 123456789012))
                             (Spec.cnpj_check2 (format_0d 14 123456789012)))).
Proof.
  apply (validate_nonneg_returns (PyStr "123.456.789-012") 123456789012 eq_refl).
  lia.
Defined.

(** X7. The [valid] property of a constructed value never raises: it is
    [validate] of the absolute value of the number the input denotes.  So it
    agrees with [validate] of the input when that number is non-negative,
    while for a negative integer [valid] answers where [validate] raises. *)
Theorem valid_is_validate_abs (v : value) :
  (forall x, CPF.__init__ v = Ok x ->
     exists n b, numeric_value v = Some n
       /\ CPF.valid x = Ok b
       /\ CPF.valid x = CPF.validate (PyInt (Z.abs n))
       /\ (0 <= n -> CPF.valid x = CPF.validate v))
  /\ (forall y, CNPJ.__init__ v = Ok y ->
     exists n b, numeric_value v = Some n
       /\ CNPJ.valid y = Ok b
       /\ CNPJ.valid y = CNPJ.validate (PyInt (Z.abs n))
       /\ (0 <= n -> CNPJ.valid y = CNPJ.validate v)).
Proof.
  split; intros x H.
  - destruct (cpf_init_inv v x H) as (n & Hn & E).
    assert (G : CPF.valid x = CPF.validate (PyInt (Z.abs n))).
    { unfold CPF.valid, CPF.validate. rewrite E, cpf_clean_stored. reflexivity. }
    exists n. eexists. split; [exact Hn|]. split; [|split].
    + rewrite G. apply cpf_validate_int, Z.abs_nonneg.
    + exact G.
    + intros Hp. rewrite G, Z.abs_eq by assumption.
      symmetry. now apply cpf_validate_numeric.
  - destruct (cnpj_init_inv v x H) as (n & Hn & E).
    assert (G : CNPJ.valid x = CNPJ.validate (PyInt (Z.abs n))).
    { unfold CNPJ.valid, CNPJ.validate. rewrite E, cnpj_clean_stored. reflexivity. }
    exists n. eexists. split; [exact Hn|]. split; [|split].
    + rewrite G. apply cnpj_validate_int, Z.abs_nonneg.
    + exact G.
    + intros Hp. rewrite G, Z.abs_eq by assumption.
      symmetry. now apply cnpj_validate_numeric.
Qed.

Lemma valid_is_validate_abs_witness :
  CPF.valid (CPF.mk "-8119443659") = CPF.validate (PyInt 8119443659)
  /\ CNPJ.valid (CNPJ.mk "-0008119443659") = CNPJ.validate (PyInt 8119443659).
Proof.
  split.
  - destruct (proj1 (valid_is_validate_abs (PyInt (-8119443659)))
                (CPF.mk "-8119443659") eq_refl) as (n & b & Hn & _ & H & _).
    injection Hn as <-. exact H.
  - destruct (proj2 (valid_is_validate_abs (PyInt (-8119443659)))
                (CNPJ.mk "-0008119443659") eq_refl) as (n & b & Hn & _ & H & _).
    injection Hn as <-. exact H.
Defined.

(** ** The punctuated form *)

Section Punctuated.

Lemma substring_prefix (s : string) : forall a b k : nat,
  (a + b <= k)%nat -> substring a b (substring 0 k s) = substring a b s.
Proof.
  induction s as [|c s IH]; intros a b k H.
  - now destruct k.
  - destruct k as [|k].
    + assert (E : a = 0%nat /\ b = 0%nat) by lia. destruct E as [-> ->].
      reflexivity.
    + cbn [substring]. destruct a as [|a]; [destruct b as [|b]|].
      * reflexivity.
      * cbn [substring]. f_equal. apply IH. lia.
      * cbn [substring]. apply IH. lia.
Qed.

End Punctuated.

(** X8. [format('f')] of every constructed value, also one built from a
    negative or an over-wide integer, is a string of the fixed shape
    [DDD.DDD.DDD-DD] (CPF) or [DD.DDD.DDD/DDDD-DD] (CNPJ): groups of exactly
    3,3,3,2 (resp. 2,3,3,4,2) decimal digits joined by the punctuation. *)
Theorem format_f_shape (v : value) :
  (forall x, CPF.__init__ v = Ok x ->
     exists g1 g2 g3 g4,
       CPF.format x "f" = Ok (g1 ++ "." ++ g2 ++ "." ++ g3 ++ "-" ++ g4)
       /\ canonical 3 g1 /\ canonical 3 g2 /\ canonical 3 g3 /\ canonical 2 g4)
  /\ (forall y, CNPJ.__init__ v = Ok y ->
     exists g1 g2 g3 g4 g5,
       CNPJ.format y "f"
       = Ok (g1 ++ "." ++ g2 ++ "." ++ g3 ++ "/" ++ g4 ++ "-" ++ g5)
       /\ canonical 2 g1 /\ canonical 3 g2 /\ canonical 3 g3
       /\ canonical 4 g4 /\ canonical 2 g5).
Proof.
  split; intros x H.
  - destruct (cpf_init_inv v x H) as (n & _ & E).
    pose proof (all_digits_format_0d 11 (Z.abs n) (Z.abs_nonneg n)) as Hd.
    pose proof (length_format_0d 11 (Z.abs n)) as Hl.
    rewrite (cpf_format_f x n E). cbv zeta.
    do 4 eexists. split; [reflexivity|].
    repeat split;
      try (apply length_substring; cbn [Nat.sub Nat.add]; lia);
      now apply all_digits_substring.
  - destruct (cnpj_init_inv v x H) as (n & _ & E).
    pose proof (all_digits_format_0d 14 (Z.abs n) (Z.abs_nonneg n)) as Hd.
    pose proof (length_format_0d 14 (Z.abs n)) as Hl.
    rewrite (cnpj_format_f x n E). cbv zeta.
    do 5 eexists. split; [reflexivity|].
    repeat split;
      try (apply length_substring; cbn [Nat.sub Nat.add]; lia);
      now apply all_digits_substring.
Qed.

Lemma format_f_shape_witness :
  (exists g1 g2 g3 g4,
     CPF.format (CPF.mk "123456789012") "f"
     = Ok (g1 ++ "." ++ g2 ++ "." ++ g3 ++ "-" ++ g4)
     /\ canonical 3 g1 /\ canonical 3 g2 /\ canonical 3 g3 /\ canonical 2 g4)
  /\ (exists g1 g2 g3 g4 g5,
     CNPJ.format (CNPJ.mk "00123456789012") "f"
     = Ok (g1 ++ "." ++ g2 ++ "." ++ g3 ++ "/" ++ g4 ++ "-" ++ g5)
     /\ canonical 2 g1 /\ canonical 3 g2 /\ canonical 3 g3
     /\ canonical 4 g4 /\ canonical 2 g5).
Proof.
  split.
  - exact (proj1 (format_f_shape (PyInt 123456789012))
             (CPF.mk "123456789012") eq_refl).
  - exact (proj2 (format_f_shape (PyInt 123456789012))
             (CNPJ.mk "00123456789012") eq_refl).
Defined.

(** X9. On every constructed value [str(x)], [format(x, '')] and
    [format(x, 'f')] return one and the same punctuated string, of exactly
    14 (CPF) or 18 (CNPJ) characters, and [repr(x)] returns it between
    ['<CPF: '] (['<CNPJ: ']) and ['>']; none of them raises. *)
Theorem str_repr_agree (v : value) :
  (forall x, CPF.__init__ v = Ok x ->
     exists p, String.length p = 14%nat
       /\ CPF.__str__ x = Ok p
       /\ CPF.__format__ x EmptyString = Ok p
       /\ CPF.__format__ x "f" = Ok p
       /\ CPF.__repr__ x = Ok ("<CPF: " ++ p ++ ">"))
  /\ (forall y, CNPJ.__init__ v = Ok y ->
     exists p, String.length p = 18%nat
       /\ CNPJ.__str__ y = Ok p
       /\ CNPJ.__format__ y EmptyString = Ok p
       /\ CNPJ.__format__ y "f" = Ok p
       /\ CNPJ.__repr__ y = Ok ("<CNPJ: " ++ p ++ ">")).
Proof.
  split; intros x H.
  - destruct (cpf_init_inv v x H) as (n & _ & E).
    pose proof (length_format_0d 11 (Z.abs n)) as Hl.
    unfold CPF.__repr__, CPF.__str__, CPF.__format__.
    change (CPF.format x EmptyString) with (CPF.format x "f").
    rewrite (cpf_format_f x n E). cbv zeta. cbn [bind].
    eexists. split; [|repeat split].
    unfold slice. rewrite !length_append, !length_substring
      by (cbn [Nat.sub Nat.add]; lia).
    reflexivity.
  - destruct (cnpj_init_inv v x H) as (n & _ & E).
    pose proof (length_format_0d 14 (Z.abs n)) as Hl.
    unfold CNPJ.__repr__, CNPJ.__str__, CNPJ.__format__.
    change (CNPJ.format x EmptyString) with (CNPJ.format x "f").
    rewrite (cnpj_format_f x n E). cbv zeta. cbn [bind].
    eexists. split; [|repeat split].
    unfold slice. rewrite !length_append, !length_substring
      by (cbn [Nat.sub Nat.add]; lia).
    reflexivity.
Qed.

Lemma str_repr_agree_witness :
  (exists p, String.length p = 14%nat
     /\ CPF.__str__ (CPF.mk "-0000000005") = Ok p
     /\ CPF.__format__ (CPF.mk "-0000000005") EmptyString = Ok p
     /\ CPF.__format__ (CPF.mk "-0000000005") "f" = Ok p
     /\ CPF.__repr__ (CPF.mk "-0000000005") = Ok ("<CPF: " ++ p ++ ">"))
  /\ (exists p, String.length p = 18%nat
     /\ CNPJ.__str__ (CNPJ.mk "-0000000000005") = Ok p
     /\ CNPJ.__format__ (CNPJ.mk "-0000000000005") EmptyString = Ok p
     /\ CNPJ.__format__ (CNPJ.mk "-0000000000005") "f" = Ok p
     /\ CNPJ.__repr__ (CNPJ.mk "-0000000000005") = Ok ("<CNPJ: " ++ p ++ ">")).
Proof.
  split.
  - exact (proj1 (str_repr_agree (PyInt (-5))) (CPF.mk "-0000000005") eq_refl).
  - exact (proj2 (str_repr_agree (PyInt (-5))) (CNPJ.mk "-0000000000005") eq_refl).
Defined.

(** ** How the derived views fit together *)

(** X10. A constructed value that is [empty] is [valid]: the only stored
    string whose number is zero is the all-zero one, and it passes the
    check. *)
Theorem empty_implies_valid (v : value) :
  (forall x, CPF.__init__ v = Ok x ->
     CPF.empty x = Ok true -> CPF.valid x = Ok true)
  /\ (forall y, CNPJ.__init__ v = Ok y ->
     CNPJ.empty y = Ok true -> CNPJ.valid y = Ok true).
Proof.
  split; intros [s] H He.
  - destruct (cpf_init_inv v _ H) as (n & _ & E). cbn [CPF._cpf] in E.
    unfold CPF.empty in He. cbn [CPF._cpf] in He.
    rewrite E, int_of_str_stored in He. cbn [bind] in He.
    injection He as He. apply Z.eqb_eq in He. subst n s. reflexivity.
  - destruct (cnpj_init_inv v _ H) as (n & _ & E). cbn [CNPJ._cnpj] in E.
    unfold CNPJ.empty in He. cbn [CNPJ._cnpj] in He.
    rewrite E, int_of_str_stored in He. cbn [bind] in He.
    injection He as He. apply Z.eqb_eq in He. subst n s. reflexivity.
Qed.

Lemma empty_implies_valid_witness :
  CPF.valid (CPF.mk "00000000000") = Ok true
  /\ CNPJ.valid (CNPJ.mk "00000000000000") = Ok true.
Proof.
  split.
  - exact (proj1 (empty_implies_valid (PyStr "0.0/0-0"))
             (CPF.mk "00000000000") eq_refl eq_refl).
  - exact (proj2 (empty_implies_valid (PyStr "0.0/0-0"))
             (CNPJ.mk "00000000000000") eq_refl eq_refl).
Defined.

(** X11. For a CNPJ built from an input that denotes a non-negative number,
    the punctuated form is made of [raiz] cut into groups of 2, 3 and 3
    characters, then [extensao] after the slash, then characters 12 and 13
    of the stored string after the dash. *)
Theorem format_f_of_raiz_extensao (v : value) (n : Z) (x : CNPJ.t) :
  numeric_value v = Some n -> 0 <= n -> CNPJ.__init__ v = Ok x ->
  CNPJ.format x "f"
  = Ok (slice (CNPJ.raiz x) 0 2 ++ "." ++ slice (CNPJ.raiz x) 2 5 ++ "."
          ++ slice (CNPJ.raiz x) 5 8 ++ "/" ++ CNPJ.extensao x ++ "-"
          ++ slice (CNPJ._cnpj x) 12 14).
Proof.
  intros Hv Hn H. destruct (cnpj_init_inv v x H) as (m & Hm & E).
  assert (m = n) as -> by congruence.
  rewrite (cnpj_format_f x n E). cbv zeta.
  rewrite Z.abs_eq by assumption. rewrite <- E.
  unfold CNPJ.raiz, CNPJ.extensao, slice. cbn [Nat.sub].
  rewrite !substring_prefix by (cbn [Nat.add]; lia).
  reflexivity.
Qed.

Lemma format_f_of_raiz_extensao_witness :
  CNPJ.format (CNPJ.mk "58414462000135") "f"
  = Ok (slice (CNPJ.raiz (CNPJ.mk "58414462000135")) 0 2 ++ "."
          ++ slice (CNPJ.raiz (CNPJ.mk "58414462000135")) 2 5 ++ "."
          ++ slice (CNPJ.raiz (CNPJ.mk "58414462000135")) 5 8 ++ "/"
          ++ CNPJ.extensao (CNPJ.mk "58414462000135") ++ "-"
          ++ slice (CNPJ._cnpj (CNPJ.mk "58414462000135")) 12 14).
Proof.
  apply (format_f_of_raiz_extensao (PyInt 58414462000135) 58414462000135
           (CNPJ.mk "58414462000135") eq_refl); [lia | reflexivity].
Defined.

(** X12. For a constructed value whose stored string is exactly the
    canonical number of digits, validating the punctuated form gives the
    same answer as validating the raw form, which is the [valid] property. *)
Theorem validate_formatted (v : value) :
  (forall x, CPF.__init__ v = Ok x -> canonical 11 (CPF._cpf x) ->
     (p <- CPF.format x "f" ;; CPF.validate (PyStr p)) = CPF.valid x
     /\ (r <- CPF.format x "r" ;; CPF.validate (PyStr r)) = CPF.valid x)
  /\ (forall y, CNPJ.__init__ v = Ok y -> canonical 14 (CNPJ._cnpj y) ->
     (p <- CNPJ.format y "f" ;; CNPJ.validate (PyStr p)) = CNPJ.valid y
     /\ (r <- CNPJ.format y "r" ;; CNPJ.validate (PyStr r)) = CNPJ.valid y).
Proof.
  split; intros x H Hc; (split; [|reflexivity]).
  - destruct (cpf_init_inv v x H) as (n & _ & E).
    pose proof (cpf_clean_format_f x n E) as G.
    pose proof (proj2 (prefix_abs_iff 10 n) ltac:(now rewrite <- E)) as P.
    rewrite P, <- E in G.
    destruct (CPF.format x "f") as [p|e]; [|discriminate G]. cbn [bind] in *.
    unfold CPF.valid, CPF.validate.
    now rewrite G, (cpf_clean_canonical _ Hc).
  - destruct (cnpj_init_inv v x H) as (n & _ & E).
    pose proof (cnpj_clean_format_f x n E) as G.
    pose proof (proj2 (prefix_abs_iff 13 n) ltac:(now rewrite <- E)) as P.
    rewrite P, <- E in G.
    destruct (CNPJ.format x "f") as [p|e]; [|discriminate G]. cbn [bind] in *.
    unfold CNPJ.valid, CNPJ.validate.
    now rewrite G, (cnpj_clean_canonical _ Hc).
Qed.

Lemma validate_formatted_witness :
  ((p <- CPF.format (CPF.mk "58119443659") "f" ;; CPF.validate (PyStr p))
     = CPF.valid (CPF.mk "58119443659")
   /\ (r <- CPF.format (CPF.mk "58119443659") "r" ;; CPF.validate (PyStr r))
     = CPF.valid (CPF.mk "58119443659"))
  /\ ((p <- CNPJ.format (CNPJ.mk "00058119443659") "f" ;; CNPJ.validate (PyStr p))
     = CNPJ.valid (CNPJ.mk "00058119443659")
   /\ (r <- CNPJ.format (CNPJ.mk "00058119443659") "r" ;; CNPJ.validate (PyStr r))
     = CNPJ.valid (CNPJ.mk "00058119443659")).
Proof.
  split.
  - apply (proj1 (validate_formatted (PyInt 58119443659))
             (CPF.mk "58119443659") eq_refl). split; reflexivity.
  - apply (proj2 (validate_formatted (PyInt 58119443659))
             (CNPJ.mk "00058119443659") eq_refl). split; reflexivity.
Defined.

(** ** The payload determines the check digits *)

Section Completion.

Lemma cpf_validate_canonical (d : string) :
  canonical 11 d ->
  CPF.validate (PyStr d)
  = Ok (String.eqb (slice_last d 2)
          (Spec.two_digits (Spec.cpf_check1 d) (Spec.cpf_check2 d))).
Proof.
  intros H. unfold CPF.validate.
  rewrite cpf_clean_canonical by assumption. cbn [bind].
  rewrite cpf_dig1_canonical, cpf_dig2_canonical by assumption. cbn [bind].
  rewrite !str_of_int_digit
    by (apply cpf_check1_range || apply cpf_check2_range).
  reflexivity.
Qed.

Lemma cnpj_validate_canonical (d : string) :
  canonical 14 d ->
  CNPJ.validate (PyStr d)
  = Ok (String.eqb (slice_last d 2)
          (Spec.two_digits (Spec.cnpj_check1 d) (Spec.cnpj_check2 d))).
Proof.
  intros H. unfold CNPJ.validate.
  rewrite cnpj_clean_canonical by assumption. cbn [bind].
  rewrite cnpj_dig1_canonical, cnpj_dig2_canonical by assumption. cbn [bind].
  rewrite !str_of_int_digit
    by (apply cnpj_check1_range || apply cnpj_check2_range).
  reflexivity.
Qed.

Lemma append_inv_head (a b c : string) : a ++ b = a ++ c -> b = c.
Proof.
  induction a as [|x a IH]; cbn [append]; intros H; [exact H|].
  injection H as H. now apply IH.
Qed.

Lemma substring_app_prefix (a b : string) (k : nat) :
  String.length a = k -> substring 0 k (a ++ b) = a.
Proof.
  intros <-. induction a as [|x a IH]; cbn [append String.length substring].
  - now destruct b.
  - now rewrite IH.
Qed.

Lemma substring_app_suffix (a b : string) (k m : nat) :
  String.length a = k -> substring k m (a ++ b) = substring 0 m b.
Proof.
  intros <-. induction a as [|x a IH]; cbn [append String.length substring];
    [reflexivity | exact IH].
Qed.

(** A string of [w + 2] digits is [w] digits followed by two digits. *)
Lemma canonical_split2 (w : nat) (d : string) :
  canonical (S (S w)) d ->
  exists p c1 c2,
    d = p ++ String c1 (String c2 EmptyString)
    /\ canonical w p /\ isdigit c1 = true /\ isdigit c2 = true.
Proof.
  intros [Hl Hd].
  destruct (string_snoc_inv _ d Hl) as (q & c2 & -> & Hq).
  destruct (string_snoc_inv _ q Hq) as (p & c1 & -> & Hp).
  rewrite !all_digits_append in Hd. cbn [all_digits] in Hd.
  rewrite !andb_true_r in Hd.
  apply andb_true_iff in Hd as [Hd H2]. apply andb_true_iff in Hd as [Hd H1].
  exists p, c1, c2. rewrite append_assoc. cbn [append]. repeat split; assumption.
Qed.

Lemma slice_last_two (p : string) (c1 c2 : ascii) :
  slice_last (p ++ String c1 (String c2 EmptyString)) 2
  = String c1 (String c2 EmptyString).
Proof.
  unfold slice_last. rewrite length_append. cbn [String.length].
  rewrite (substring_app_suffix p _ _ 2) by lia. reflexivity.
Qed.

(** The first check digit reads the payload only, the second the payload and
    the first check digit. *)
Lemma cpf_check1_app (p t : string) :
  String.length p = 9%nat -> Spec.cpf_check1 (p ++ t) = Spec.cpf_check1 p.
Proof. intros Hl. explode_len p Hl. reflexivity. Qed.

Lemma cpf_check2_app (q t : string) :
  String.length q = 10%nat -> Spec.cpf_check2 (q ++ t) = Spec.cpf_check2 q.
Proof. intros Hl. explode_len q Hl. reflexivity. Qed.

Lemma cnpj_check1_app (p t : string) :
  String.length p = 12%nat -> Spec.cnpj_check1 (p ++ t) = Spec.cnpj_check1 p.
Proof. intros Hl. explode_len p Hl. reflexivity. Qed.

Lemma cnpj_check2_app (q t : string) :
  String.length q = 13%nat -> Spec.cnpj_check2 (q ++ t) = Spec.cnpj_check2 q.
Proof. intros Hl. explode_len q Hl. reflexivity. Qed.

(** Two digits match two computed check digits exactly when the characters
    are the digits' characters. *)
Lemma two_digits_chars (c1 c2 : ascii) (k1 k2 : Z) :
  isdigit c1 = true -> isdigit c2 = true -> 0 <= k1 < 10 -> 0 <= k2 < 10 ->
  (String.eqb (String c1 (String c2 EmptyString)) (Spec.two_digits k1 k2) = true
   <-> c1 = digit_char k1 /\ c2 = digit_char k2).
Proof.
  intros H1 H2 Hk1 Hk2. rewrite two_digits_eqb by assumption.
  rewrite !digit_char_inj by assumption. split; intros [? ?]; split; congruence.
Qed.

Lemma cpf_valid_iff_complete (d : string) :
  canonical 11 d ->
  (CPF.validate (PyStr d) = Ok true <-> d = cpf_complete (substring 0 9 d)).
Proof.
  intros H. rewrite (cpf_validate_canonical d H).
  destruct (canonical_split2 9 d H) as (p & c1 & c2 & -> & [Hp Hpd] & H1 & H2).
  rewrite slice_last_two, (substring_app_prefix p _ 9 Hp).
  rewrite (cpf_check1_app p _ Hp).
  change (String c1 (String c2 EmptyString))
    with (String c1 EmptyString ++ String c2 EmptyString).
  rewrite <- append_assoc.
  rewrite (cpf_check2_app (p ++ String c1 EmptyString))
    by (rewrite length_append, Hp; reflexivity).
  unfold cpf_complete. cbv zeta. rewrite !append_assoc. cbn [append].
  pose proof (cpf_check1_range p) as R1.
  split.
  - intros E. injection E as E.
    apply two_digits_chars in E as [-> E2];
      try assumption; try apply cpf_check2_range.
    now rewrite E2 at 1.
  - intros E. apply append_inv_head in E. injection E as E1 E2. subst c1.
    f_equal. apply two_digits_chars;
      try assumption; try apply cpf_check2_range.
    now split.
Qed.

Lemma cnpj_valid_iff_complete (d : string) :
  canonical 14 d ->
  (CNPJ.validate (PyStr d) = Ok true <-> d = cnpj_complete (substring 0 12 d)).
Proof.
  intros H. rewrite (cnpj_validate_canonical d H).
  destruct (canonical_split2 12 d H) as (p & c1 & c2 & -> & [Hp Hpd] & H1 & H2).
  rewrite slice_last_two, (substring_app_prefix p _ 12 Hp).
  rewrite (cnpj_check1_app p _ Hp).
  change (String c1 (String c2 EmptyString))
    with (String c1 EmptyString ++ String c2 EmptyString).
  rewrite <- append_assoc.
  rewrite (cnpj_check2_app (p ++ String c1 EmptyString))
    by (rewrite length_append, Hp; reflexivity).
  unfold cnpj_complete. cbv zeta. rewrite !append_assoc. cbn [append].
  pose proof (cnpj_check1_range p) as R1.
  split.
  - intros E. injection E as E.
    apply two_digits_chars in E as [-> E2];
      try assumption; try apply cnpj_check2_range.
    now rewrite E2 at 1.
  - intros E. apply append_inv_head in E. injection E as E1 E2. subst c1.
    f_equal. apply two_digits_chars;
      try assumption; try apply cnpj_check2_range.
    now split.
Qed.

Lemma cpf_complete_canonical (p : string) :
  canonical 9 p ->
  canonical 11 (cpf_complete p) /\ substring 0 9 (cpf_complete p) = p.
Proof.
  intros [Hl Hd]. unfold cpf_complete. cbv zeta. split; [split|].
  - rewrite !length_append, Hl. reflexivity.
  - rewrite !all_digits_append, Hd. cbn [all_digits].
    now rewrite !isdigit_digit_char
      by (apply cpf_check1_range || apply cpf_check2_range).
  - rewrite append_assoc. now apply substring_app_prefix.
Qed.

Lemma cnpj_complete_canonical (p : string) :
  canonical 12 p ->
  canonical 14 (cnpj_complete p) /\ substring 0 12 (cnpj_complete p) = p.
Proof.
  intros [Hl Hd]. unfold cnpj_complete. cbv zeta. split; [split|].
  - rewrite !length_append, Hl. reflexivity.
  - rewrite !all_digits_append, Hd. cbn [all_digits].
    now rewrite !isdigit_digit_char
      by (apply cnpj_check1_range || apply cnpj_check2_range).
  - rewrite append_assoc. now apply substring_app_prefix.
Qed.

End Completion.

(** X13. A string of exactly 11 (14) digits validates as a CPF (CNPJ)
    exactly when it is its own first 9 (12) digits followed by the two check
    digits computed from them, the second one over the payload extended by
    the first: the payload determines both check digits. *)
Theorem valid_iff_completion :
  (forall d, canonical 11 d ->
     (CPF.validate (PyStr d) = Ok true <-> d = cpf_complete (substring 0 9 d)))
  /\ (forall d, canonical 14 d ->
     (CNPJ.validate (PyStr d) = Ok true <-> d = cnpj_complete (substring 0 12 d))).
Proof.
  split; [apply cpf_valid_iff_complete | apply cnpj_valid_iff_complete].
Qed.

Lemma valid_iff_completion_witness :
  (CPF.validate (PyStr "58119443659") = Ok true
   <-> "58119443659" = cpf_complete (substring 0 9 "58119443659"))
  /\ (CNPJ.validate (PyStr "58414462000135") = Ok true
   <-> "58414462000135" = cnpj_complete (substring 0 12 "58414462000135")).
Proof.
  split.
  - apply (proj1 valid_iff_completion "58119443659"). split; reflexivity.
  - apply (proj2 valid_iff_completion "58414462000135"). split; reflexivity.
Defined.

(** X14. Every payload of 9 (12) digits has a valid completion: appending
    the two computed check digits gives a string of 11 (14) digits that
    starts with the payload and that [validate] accepts. *)
Theorem completion_is_valid :
  (forall p, canonical 9 p ->
     canonical 11 (cpf_complete p)
     /\ substring 0 9 (cpf_complete p) = p
     /\ CPF.validate (PyStr (cpf_complete p)) = Ok true)
  /\ (forall p, canonical 12 p ->
     canonical 14 (cnpj_complete p)
     /\ substring 0 12 (cnpj_complete p) = p
     /\ CNPJ.validate (PyStr (cnpj_complete p)) = Ok true).
Proof.
  split; intros p H.
  - destruct (cpf_complete_canonical p H) as [Hc Hs].
    repeat split; try apply Hc; [exact Hs|].
    apply cpf_valid_iff_complete; [exact Hc | now rewrite Hs].
  - destruct (cnpj_complete_canonical p H) as [Hc Hs].
    repeat split; try apply Hc; [exact Hs|].
    apply cnpj_valid_iff_complete; [exact Hc | now rewrite Hs].
Qed.

Lemma completion_is_valid_witness :
  (canonical 11 (cpf_complete "581194436")
   /\ substring 0 9 (cpf_complete "581194436") = "581194436"
   /\ CPF.validate (PyStr (cpf_complete "581194436")) = Ok true)
  /\ (canonical 14 (cnpj_complete "584144620001")
      /\ substring 0 12 (cnpj_complete "584144620001") = "584144620001"
      /\ CNPJ.validate (PyStr (cnpj_complete "584144620001")) = Ok true).
Proof.
  split.
  - apply (proj1 completion_is_valid "581194436"). split; reflexivity.
  - apply (proj2 completion_is_valid "584144620001"). split; reflexivity.
Defined.

(** X15. Altering the check digits of a valid identifier invalidates it: if
    two different strings of 11 (14) digits share their first 9 (12) digits
    and [validate] accepts one, it returns [False] for the other. *)
Theorem altered_check_digits_invalid :
  (forall d d', d <> d' -> canonical 11 d -> canonical 11 d' ->
     substring 0 9 d = substring 0 9 d' ->
     CPF.validate (PyStr d) = Ok true -> CPF.validate (PyStr d') = Ok false)
  /\ (forall d d', d <> d' -> canonical 14 d -> canonical 14 d' ->
     substring 0 12 d = substring 0 12 d' ->
     CNPJ.validate (PyStr d) = Ok true -> CNPJ.validate (PyStr d') = Ok false).
Proof.
  split; intros d d' Hne H H' Hs Hv.
  - apply cpf_valid_iff_complete in Hv; [|exact H].
    pose proof (cpf_valid_iff_complete d' H') as G.
    rewrite (cpf_validate_canonical d' H') in G |- *.
    destruct (String.eqb _ _); [|reflexivity].
    exfalso. apply Hne. rewrite Hv, Hs. symmetry. now apply G.
  - apply cnpj_valid_iff_complete in Hv; [|exact H].
    pose proof (cnpj_valid_iff_complete d' H') as G.
    rewrite (cnpj_validate_canonical d' H') in G |- *.
    destruct (String.eqb _ _); [|reflexivity].
    exfalso. apply Hne. rewrite Hv, Hs. symmetry. now apply G.
Qed.

Lemma altered_check_digits_invalid_witness :
  CPF.validate (PyStr "58119443650") = Ok false
  /\ CNPJ.validate (PyStr "58414462000136") = Ok false.
Proof.
  split.
  - apply (proj1 altered_check_digits_invalid "58119443659" "58119443650");
      try (split; reflexivity); try reflexivity; discriminate.
  - apply (proj2 altered_check_digits_invalid "58414462000135" "58414462000136");
      try (split; reflexivity); try reflexivity; discriminate.
Defined.

(** ** Numbers wider than the canonical width, and the parts of a CNPJ *)

Lemma overflow_stored_unpadded_witness :
  (exists x, CPF.__init__ (PyStr "1.000.000.000.000-00") = Ok x
     /\ CPF._cpf x = str_of_int 100000000000000
     /\ (11 < String.length (CPF._cpf x))%nat)
  /\ (exists y, CNPJ.__init__ (PyStr "1.000.000.000.000-00") = Ok y
     /\ CNPJ._cnpj y = str_of_int 100000000000000
     /\ (14 < String.length (CNPJ._cnpj y))%nat).
Proof.
  destruct (overflow_stored_unpadded (PyStr "1.000.000.000.000-00")
              100000000000000 eq_refl) as [H1 H2].
  split; [apply H1 | apply H2]; lia.
Defined.

Section Parts.

(** The digits of [a * 10^wb + b] are the digits of [a] followed by the
    [wb] digits of [b]. *)
Lemma fixed_concat (wa wb : nat) : forall a b : Z,
  0 <= b < 10 ^ Z.of_nat wb ->
  fixed (wa + wb) (a * 10 ^ Z.of_nat wb + b) = fixed wa a ++ fixed wb b.
Proof.
  induction wb as [|wb IH]; intros a b H.
  - change (10 ^ Z.of_nat 0) with 1 in *. assert (b = 0) as -> by lia.
    rewrite Nat.add_0_r. cbn [fixed]. rewrite append_nil_r. f_equal. lia.
  - rewrite Nat.add_succ_r. cbn [fixed]. rewrite pow10_succ in *.
    pose proof (Z.mod_pos_bound b 10 ltac:(lia)) as Hm.
    pose proof (Z.div_mod b 10 ltac:(lia)) as Hb.
    replace ((a * (10 * 10 ^ Z.of_nat wb) + b) / 10)
      with (a * 10 ^ Z.of_nat wb + b / 10)
      by (apply Z.div_unique with (r := b mod 10); lia).
    replace ((a * (10 * 10 ^ Z.of_nat wb) + b) mod 10) with (b mod 10)
      by (apply Z.mod_unique with (q := a * 10 ^ Z.of_nat wb + b / 10); lia).
    rewrite IH, append_assoc; [reflexivity|].
    split; [apply Z.div_pos; lia | apply Z.div_lt_upper_bound; lia].
Qed.

End Parts.

(** X17. A CNPJ built from the number [r * 10^6 + e * 100 + c], with
    [0 <= r < 10^8], [0 <= e < 10^4] and [0 <= c < 100], has [raiz] equal to
    [r] zero-padded to 8 digits and [extensao] equal to [e] zero-padded to 4
    digits; the stored string is these two followed by [c] zero-padded to 2
    digits. *)
Theorem cnpj_parts (v : value) (r e c : Z) (x : CNPJ.t) :
  0 <= r < 10 ^ 8 -> 0 <= e < 10 ^ 4 -> 0 <= c < 10 ^ 2 ->
  numeric_value v = Some (r * 10 ^ 6 + e * 10 ^ 2 + c) ->
  CNPJ.__init__ v = Ok x ->
  CNPJ.raiz x = format_0d 8 r
  /\ CNPJ.extensao x = format_0d 4 e
  /\ CNPJ._cnpj x = format_0d 8 r ++ format_0d 4 e ++ format_0d 2 c.
Proof.
  intros Hr He Hc Hv H.
  destruct (cnpj_init_inv v x H) as (n & Hn & E).
  assert (n = r * 10 ^ 6 + e * 10 ^ 2 + c) as -> by congruence.
  rewrite (format_0d_fixed 7 r), (format_0d_fixed 3 e), (format_0d_fixed 1 c)
    by assumption.
  assert (S : CNPJ._cnpj x = fixed 8 r ++ fixed 4 e ++ fixed 2 c).
  { rewrite E, (format_0d_fixed 13) by lia.
    replace (r * 10 ^ 6 + e * 10 ^ 2 + c)
      with (r * 10 ^ Z.of_nat 6 + (e * 10 ^ Z.of_nat 2 + c)) by lia.
    rewrite (fixed_concat 8 6) by lia.
    now rewrite (fixed_concat 4 2) by lia. }
  unfold CNPJ.raiz, CNPJ.extensao, slice. cbn [Nat.sub]. rewrite S.
  split; [|split; [|reflexivity]].
  - apply substring_app_prefix, length_fixed.
  - rewrite (substring_app_suffix _ _ 8 4) by apply length_fixed.
    apply substring_app_prefix, length_fixed.
Qed.

Lemma cnpj_parts_witness :
  CNPJ.raiz (CNPJ.mk "58414462000135") = format_0d 8 58414462
  /\ CNPJ.extensao (CNPJ.mk "58414462000135") = format_0d 4 1
  /\ CNPJ._cnpj (CNPJ.mk "58414462000135")
     = format_0d 8 58414462 ++ format_0d 4 1 ++ format_0d 2 35.
Proof.
  apply (cnpj_parts (PyStr "58.414.462/0001-35") 58414462 1 35
           (CNPJ.mk "58414462000135")); try lia; reflexivity.
Defined.

(** ** Remaining edge behaviour *)

(** X18. [validate] of a string without any digit character does not
    return [False]: it raises the [ValueError] of [int('')], in both
    classes, unlike [validate(None)]. *)
Theorem validate_without_digits_raises (s : string) :
  re_sub_non_digits s = EmptyString ->
  CPF.validate (PyStr s) = Raise (invalid_literal EmptyString)
  /\ CNPJ.validate (PyStr s) = Raise (invalid_literal EmptyString).
Proof.
  intros H. unfold CPF.validate, CNPJ.validate, CPF.clean, CNPJ.clean.
  rewrite H. split; reflexivity.
Qed.

Lemma validate_without_digits_raises_witness :
  CPF.validate (PyStr "n/a") = Raise (invalid_literal EmptyString)
  /\ CNPJ.validate (PyStr "n/a") = Raise (invalid_literal EmptyString).
Proof. apply (validate_without_digits_raises "n/a"). reflexivity. Defined.

(** X19. The punctuated form of a constructed value shows the first 11
    (CPF) or 14 (CNPJ) characters of the re-cleaned stored string and
    nothing else: for a value built from a non-negative number its digits
    are exactly the first 11 (14) characters of the raw form, so digits
    beyond the canonical width are dropped from it. *)
Theorem format_f_digits (v : value) (n : Z) :
  numeric_value v = Some n -> 0 <= n ->
  (forall x, CPF.__init__ v = Ok x ->
     exists p, CPF.format x "f" = Ok p
       /\ re_sub_non_digits p = substring 0 11 (CPF._cpf x))
  /\ (forall y, CNPJ.__init__ v = Ok y ->
     exists p, CNPJ.format y "f" = Ok p
       /\ re_sub_non_digits p = substring 0 14 (CNPJ._cnpj y)).
Proof.
  intros Hv Hn. split; intros x H.
  - destruct (cpf_init_inv v x H) as (m & Hm & E).
    assert (m = n) as -> by congruence.
    rewrite (cpf_format_f x n E). cbv zeta. rewrite Z.abs_eq, <- E by assumption.
    eexists. split; [reflexivity|].
    apply cpf_punctuation_stripped; rewrite E;
      [now apply all_digits_format_0d | apply length_format_0d].
  - destruct (cnpj_init_inv v x H) as (m & Hm & E).
    assert (m = n) as -> by congruence.
    rewrite (cnpj_format_f x n E). cbv zeta. rewrite Z.abs_eq, <- E by assumption.
    eexists. split; [reflexivity|].
    apply cnpj_punctuation_stripped; rewrite E;
      [now apply all_digits_format_0d | apply length_format_0d].
Qed.

Lemma format_f_digits_witness :
  (exists p, CPF.format (CPF.mk "123456789012345") "f" = Ok p
     /\ re_sub_non_digits p = substring 0 11 "123456789012345")
  /\ (exists p, CNPJ.format (CNPJ.mk "123456789012345") "f" = Ok p
     /\ re_sub_non_digits p = substring 0 14 "123456789012345").
Proof.
  destruct (format_f_digits (PyInt 123456789012345) 123456789012345 eq_refl
              ltac:(lia)) as [H1 H2].
  split.
  - exact (H1 (CPF.mk "123456789012345") eq_refl).
  - exact (H2 (CNPJ.mk "123456789012345") eq_refl).
Defined.
